(** * PaddleClas: GoogLeNet backbone and the Python inference driver

    A shallow embedding of
      - [tools/infer/py_infer.py]  (module [PyInfer]) and
      - [ppcls/arch/backbone/model_zoo/googlenet.py]  (module [GoogLeNetPy]),
    followed by the properties checked against the specification. *)

From Stdlib Require Import String Ascii.
From Stdlib Require Import List ZArith QArith Lia Bool.
From Stdlib Require Import Permutation Sorting.Sorted.
From Stdlib Require Import Reals Lra.
Import ListNotations.

Set Implicit Arguments.
Set Warnings "-register-all".

(** ** Python exceptions and the error monad *)

Inductive exn : Type :=
| IndexError
| Exception (msg : string)
| RuntimeError (msg : string)
| KeyError (k : string)
| NotADirectoryError (path : string).

Definition result (A : Type) : Type := (exn + A)%type.

Definition ret {A} (a : A) : result A := inr a.
Definition raise {A} (e : exn) : result A := inl e.
Definition bind {A B} (m : result A) (k : A -> result B) : result B :=
  match m with
  | inl e => inl e
  | inr a => k a
  end.

Notation "x <- m ;; k" := (bind m (fun x => k))
  (at level 61, m at next level, right associativity).

Fixpoint mapM {A B} (f : A -> result B) (l : list A) : result (list B) :=
  match l with
  | [] => ret []
  | a :: l' => b <- f a ;; bs <- mapM f l' ;; ret (b :: bs)
  end.

(** ** tools/infer/py_infer.py *)

Module PyInfer.

(** The fetched output is a score vector, or a batch of score rows. *)
Inductive ndarray : Type :=
| Array1 (xs : list Q)
| Array2 (rows : list (list Q)).

(** [np.array(output).flatten()] *)
Definition flatten (a : ndarray) : list Q :=
  match a with
  | Array1 xs => xs
  | Array2 rows => concat rows
  end.

(** [outputs[0]] *)
Definition getitem0 {A} (l : list A) : result A :=
  match l with
  | [] => raise IndexError
  | x :: _ => ret x
  end.

(** The entry of [prob] at position [i]. *)
Definition key (prob : list Q) (i : nat) : Q := nth i prob 0%Q.

(** *** [numpy.argsort]

    [prob.argsort(axis=0)] is a routine of the numerical library.  The
    library documents that it lists the positions of the array in an order
    of non-decreasing value, and leaves open which of two equal values
    comes first: the default kind, quicksort, is not stable, and vectorised
    builds order equal values differently from the scalar routine.  The
    driver is therefore written over an interface; what holds on every
    build assumes of the routine only what is documented (see
    [ascending_on]). *)
Class ArgSort : Type := {
  argsort : list Q -> list nat
}.

(** The scalar routine of the library, [aquicksort]: a quicksort on the
    index array with a median of three as pivot, an insertion sort for runs
    of at most 17 entries and a heap sort once the depth limit is used
    up.  Pointers into the index array are offsets.  A loop runs on
    fuel, the length of the array (one more for the outer loop), which
    exceeds the number of its rounds. *)

Definition Qlt_b (x y : Q) : bool := negb (Qle_bool y x).

Definition aget (a : list nat) (i : Z) : nat := nth (Z.to_nat i) a 0%nat.

Fixpoint update (i : nat) (x : nat) (a : list nat) : list nat :=
  match a, i with
  | [], _ => []
  | _ :: a', O => x :: a'
  | y :: a', S i' => y :: update i' x a'
  end.

Definition aset (a : list nat) (i : Z) (x : nat) : list nat :=
  update (Z.to_nat i) x a.

Definition INTP_SWAP (a : list nat) (i j : Z) : list nat :=
  let tmp := aget a j in
  aset (aset a j (aget a i)) i tmp.

Record qs_state : Type := mkState {
  tosort : list nat;
  qs_pl : Z;
  qs_pr : Z;
  qs_stack : list Z;
  qs_depth : list Z;
  qs_cdepth : Z
}.

Definition SMALL_QUICKSORT : Z := 16.

Definition npy_get_msb (num : Z) : Z := Z.log2 num.

Section Quicksort.

Variable v : list Q.

(** [v[a[i]]] *)
Definition val (a : list nat) (i : Z) : Q := key v (aget a i).

(** [do ++pi; while (v[*pi] < vp);] *)
Fixpoint scan_up (fuel : nat) (a : list nat) (vp : Q) (pi : Z) : Z :=
  match fuel with
  | O => pi
  | S fuel =>
      let pi := (pi + 1)%Z in
      if Qlt_b (val a pi) vp then scan_up fuel a vp pi else pi
  end.

(** [do --pj; while (vp < v[*pj]);] *)
Fixpoint scan_down (fuel : nat) (a : list nat) (vp : Q) (pj : Z) : Z :=
  match fuel with
  | O => pj
  | S fuel =>
      let pj := (pj - 1)%Z in
      if Qlt_b vp (val a pj) then scan_down fuel a vp pj else pj
  end.

Fixpoint partition_loop (fuel : nat) (a : list nat) (vp : Q) (pi pj : Z)
  : list nat * Z :=
  match fuel with
  | O => (a, pi)
  | S fuel =>
      let pi := scan_up (length a) a vp pi in
      let pj := scan_down (length a) a vp pj in
      if (pi >=? pj)%Z then (a, pi)
      else partition_loop fuel (INTP_SWAP a pi pj) vp pi pj
  end.

(** One round of [while ((pr - pl) > SMALL_QUICKSORT)]: the larger part
    goes on the stack. *)
Definition partition_step (s : qs_state) : qs_state :=
  let a := tosort s in
  let pl := qs_pl s in
  let pr := qs_pr s in
  let pm := (pl + Z.shiftr (pr - pl) 1)%Z in
  let a := if Qlt_b (val a pm) (val a pl) then INTP_SWAP a pm pl else a in
  let a := if Qlt_b (val a pr) (val a pm) then INTP_SWAP a pr pm else a in
  let a := if Qlt_b (val a pm) (val a pl) then INTP_SWAP a pm pl else a in
  let vp := val a pm in
  let pi := pl in
  let pj := (pr - 1)%Z in
  let a := INTP_SWAP a pm pj in
  let '(a, pi) := partition_loop (length a) a vp pi pj in
  let pk := (pr - 1)%Z in
  let a := INTP_SWAP a pi pk in
  let cdepth := (qs_cdepth s - 1)%Z in
  if (pi - pl <? pr - pi)%Z
  then mkState a pl (pi - 1) (pr :: (pi + 1)%Z :: qs_stack s)
         (cdepth :: qs_depth s) cdepth
  else mkState a (pi + 1) pr ((pi - 1)%Z :: pl :: qs_stack s)
         (cdepth :: qs_depth s) cdepth.

Fixpoint partition_while (fuel : nat) (s : qs_state) : qs_state :=
  match fuel with
  | O => s
  | S fuel =>
      if (qs_pr s - qs_pl s >? SMALL_QUICKSORT)%Z
      then partition_while fuel (partition_step s)
      else s
  end.

(** [while (pj > pl && vp < v[*pk]) *pj-- = *pk--;] *)
Fixpoint insertion_shift (fuel : nat) (a : list nat) (vp : Q) (pl pj pk : Z)
  : list nat * Z :=
  match fuel with
  | O => (a, pj)
  | S fuel =>
      if ((pj >? pl)%Z && Qlt_b vp (val a pk))%bool
      then insertion_shift fuel (aset a pj (aget a pk)) vp pl
             (pj - 1) (pk - 1)
      else (a, pj)
  end.

(** [for (pi = pl + 1; pi <= pr; ++pi)] of the insertion sort *)
Fixpoint insertion_for (fuel : nat) (a : list nat) (pl pr pi : Z)
  : list nat :=
  match fuel with
  | O => a
  | S fuel =>
      if (pi <=? pr)%Z
      then
        let vi := aget a pi in
        let vp := key v vi in
        let '(a, pj) := insertion_shift (length a) a vp pl pi (pi - 1) in
        insertion_for fuel (aset a pj vi) pl pr (pi + 1)
      else a
  end.

(** The heap sort works on [a[off + 1 .. off + n]]. *)
Fixpoint sift (fuel : nat) (a : list nat) (off n : Z) (tmp : nat) (i j : Z)
  : list nat * Z :=
  match fuel with
  | O => (a, i)
  | S fuel =>
      if (j <=? n)%Z
      then
        let j := if ((j <? n)%Z
                     && Qlt_b (val a (off + j)) (val a (off + j + 1)))%bool
                 then (j + 1)%Z else j in
        if Qlt_b (key v tmp) (val a (off + j))
        then sift fuel (aset a (off + i) (aget a (off + j))) off n tmp
               j (j + j)
        else (a, i)
      else (a, i)
  end.

Fixpoint heapify (fuel : nat) (a : list nat) (off n l : Z) : list nat :=
  match fuel with
  | O => a
  | S fuel =>
      if (l >? 0)%Z
      then
        let tmp := aget a (off + l) in
        let '(a, i) := sift (length a) a off n tmp l (Z.shiftl l 1) in
        heapify fuel (aset a (off + i) tmp) off n (l - 1)
      else a
  end.

Fixpoint extract (fuel : nat) (a : list nat) (off n : Z) : list nat :=
  match fuel with
  | O => a
  | S fuel =>
      if (n >? 1)%Z
      then
        let tmp := aget a (off + n) in
        let a := aset a (off + n) (aget a (off + 1)) in
        let n := (n - 1)%Z in
        let '(a, i) := sift (length a) a off n tmp 1 2 in
        extract fuel (aset a (off + i) tmp) off n
      else a
  end.

Definition aheapsort (a : list nat) (start n : Z) : list nat :=
  let off := (start - 1)%Z in
  let a := heapify (length a) a off n (Z.shiftr n 1) in
  extract (length a) a off n.

(** The outer [while (1)]: sort the current run, then pop the next one. *)
Fixpoint quicksort_loop (fuel : nat) (s : qs_state) : list nat :=
  match fuel with
  | O => tosort s
  | S fuel =>
      let s :=
        if (qs_cdepth s <? 0)%Z
        then mkState (aheapsort (tosort s) (qs_pl s) (qs_pr s - qs_pl s + 1))
               (qs_pl s) (qs_pr s) (qs_stack s) (qs_depth s) (qs_cdepth s)
        else
          let s := partition_while (length (tosort s)) s in
          mkState (insertion_for (length (tosort s)) (tosort s)
                     (qs_pl s) (qs_pr s) (qs_pl s + 1))
            (qs_pl s) (qs_pr s) (qs_stack s) (qs_depth s) (qs_cdepth s) in
      match qs_stack s, qs_depth s with
      | pr :: pl :: stack, cdepth :: depth =>
          quicksort_loop fuel (mkState (tosort s) pl pr stack depth cdepth)
      | _, _ => tosort s
      end
  end.

(** The index array starts as 0, 1, ..., num - 1. *)
Definition aquicksort : list nat :=
  let num := length v in
  quicksort_loop (S num)
    (mkState (seq 0 num) 0 (Z.of_nat num - 1) [] []
       (npy_get_msb (Z.of_nat num) * 2)).

End Quicksort.

#[export] Instance npy_quicksort : ArgSort := {| argsort := aquicksort |}.

(** Python's slice [a[start:]]: a negative start counts from the end and
    the bounds are clamped to the length. *)
Definition slice_start (start : Z) (n : nat) : nat :=
  if (start <? 0)%Z
  then Z.to_nat (Z.max (start + Z.of_nat n) 0)
  else Z.to_nat (Z.min start (Z.of_nat n)).

Definition slice_from {A} (start : Z) (l : list A) : list A :=
  skipn (slice_start start (length l)) l.

(** [.astype('int32')]: the value wraps into the signed 32-bit range. *)
Definition astype_int32 (i : Z) : Z :=
  ((i + 2 ^ 31) mod 2 ^ 32 - 2 ^ 31)%Z.

(** [prob[i]] for one integer [i] of an index array: a negative index
    counts from the end, anything out of range raises. *)
Definition getitem (prob : list Q) (i : Z) : result Q :=
  let n := Z.of_nat (length prob) in
  if ((0 <=? i) && (i <? n))%Z then ret (nth (Z.to_nat i) prob 0%Q)
  else if ((- n <=? i) && (i <? 0))%Z then ret (nth (Z.to_nat (i + n)) prob 0%Q)
  else raise IndexError.

(** [def postprocess(outputs, topk=5)] *)
Definition postprocess {AS : ArgSort} (outputs : list ndarray) (topk : Z)
  : result (list (Z * Q)) :=
  output <- getitem0 outputs ;;
  let prob := flatten output in
  let index :=
    map astype_int32
      (map Z.of_nat (rev (slice_from (- topk) (argsort prob)))) in
  scores <- mapM (getitem prob) index ;;
  ret (combine index scores).


(** *** The file system seen through [os.path] and [os.listdir] *)

Inductive node : Type :=
| File                              (* a regular file *)
| Dir (entries : list string)       (* a directory and its listing *)
| Special.                          (* anything else that exists *)

Definition filesystem : Type := string -> option node.

Definition path_exists (fs : filesystem) (p : string) : bool :=
  match fs p with Some _ => true | None => false end.

Definition isfile (fs : filesystem) (p : string) : bool :=
  match fs p with Some File => true | _ => false end.

Definition isdir (fs : filesystem) (p : string) : bool :=
  match fs p with Some (Dir _) => true | _ => false end.

Definition listdir (fs : filesystem) (p : string) : result (list string) :=
  match fs p with
  | Some (Dir entries) => ret entries
  | _ => raise (NotADirectoryError p)
  end.

Fixpoint endswith_sep (s : string) : bool :=
  match s with
  | EmptyString => false
  | String c EmptyString => Ascii.eqb c "/"
  | String _ s' => endswith_sep s'
  end.

Definition startswith_sep (s : string) : bool :=
  match s with
  | String c _ => Ascii.eqb c "/"
  | EmptyString => false
  end.

(** [os.path.join(a, b)] (posixpath) *)
Definition join (a b : string) : string :=
  if startswith_sep b then b
  else if (String.eqb a "" || endswith_sep a)%bool then (a ++ b)%string
  else (a ++ "/" ++ b)%string.

(** [s.split('.')] *)
Fixpoint split_dot (s : string) : list string :=
  match s with
  | EmptyString => [EmptyString]
  | String c s' =>
      if Ascii.eqb c "."
      then EmptyString :: split_dot s'
      else match split_dot s' with
           | w :: ws => String c w :: ws
           | [] => [String c EmptyString]
           end
  end.

(** [s.split('.')[-1]] *)
Definition last_field (s : string) : string := last (split_dot s) EmptyString.

(** [x in l] for a list of strings *)
Definition str_in (x : string) (l : list string) : bool :=
  existsb (String.eqb x) l.

Definition img_end : list string :=
  ["jpg"; "png"; "jpeg"; "JPEG"; "JPG"; "bmp"]%string.

Definition not_found (img_file : string) : exn :=
  Exception ("not found any img file in " ++ img_file)%string.

(** [def get_image_list(img_file)]; [None] is Python's [None]. *)
Definition get_image_list (fs : filesystem) (img_file : option string)
  : result (list string) :=
  let imgs_lists : list string := [] in
  match img_file with
  | None => raise (not_found "None")
  | Some img_file =>
      if negb (path_exists fs img_file) then raise (not_found img_file)
      else
        imgs_lists <-
          (if (isfile fs img_file && str_in (last_field img_file) img_end)%bool
           then ret (imgs_lists ++ [img_file])
           else if isdir fs img_file
           then
             entries <- listdir fs img_file ;;
             ret (fold_left
                    (fun acc single_file =>
                       if str_in (last_field single_file) img_end
                       then acc ++ [join img_file single_file]
                       else acc)
                    entries imgs_lists)
           else ret imgs_lists) ;;
        if (length imgs_lists =? 0)%nat then raise (not_found img_file)
        else ret imgs_lists
  end.

(** [c.lower()] for one character.  Characters outside ASCII are left as
    they are; none of them lowers to a letter of "true" or to "1". *)
Definition lower_ascii (c : ascii) : ascii :=
  let n := nat_of_ascii c in
  if ((65 <=? n) && (n <=? 90))%nat then ascii_of_nat (n + 32) else c.

(** [v.lower()] *)
Fixpoint lower (s : string) : string :=
  match s with
  | EmptyString => EmptyString
  | String c s' => String (lower_ascii c) (lower s')
  end.

(** [def str2bool(v)], local to [parse_args] *)
Definition str2bool (v : string) : bool :=
  str_in (lower v) ["true"; "t"; "1"]%string.

End PyInfer.

(** ** ppcls/arch/backbone/model_zoo/googlenet.py *)

Module GoogLeNetPy.

Definition MODEL_URLS : list (string * string) :=
  [("GoogLeNet",
    "https://paddle-imagenet-models-name.bj.bcebos.com/dygraph/GoogLeNet_pretrained.pdparams")]%string.

(** [d[k]] on a dictionary with string keys *)
Fixpoint dict_get (d : list (string * string)) (k : string) : result string :=
  match d with
  | [] => raise (KeyError k)
  | (k', v) :: d' => if String.eqb k k' then ret v else dict_get d' k
  end.

(** *** Layer descriptions (the [paddle.nn] objects the module builds) *)

Inductive Initializer : Type :=
| Uniform (low high : R).

Record ParamAttr : Type := mkParamAttr {
  initializer : option Initializer;
  attr_name : string
}.

Record Conv2D : Type := mkConv2D {
  in_channels : Z;
  out_channels : Z;
  kernel_size : Z;
  stride : Z;
  padding : Z;
  groups : Z;
  weight_attr : ParamAttr;
  bias_attr : option ParamAttr;          (* [False]: no bias *)
  conv_data_format : string
}.

Record Pool2D : Type := mkPool2D {
  pool_kernel_size : Z;
  pool_stride : Z;
  pool_padding : Z;
  pool_data_format : string
}.

Record AdaptiveAvgPool2D : Type := mkAdaptiveAvgPool2D {
  output_size : Z;
  adaptive_data_format : string
}.

Record Dropout : Type := mkDropout {
  drop_p : Q;
  drop_mode : string
}.

Record Linear : Type := mkLinear {
  in_features : Z;
  out_features : Z;
  linear_weight_attr : ParamAttr;
  linear_bias_attr : ParamAttr
}.

(** *** The tensor operations of the framework

    The network code only composes operations of the numerical runtime, so
    it is written once, over any carrier [T] providing them. *)

Class TensorOps (T : Type) : Type := {
  conv2d : Conv2D -> T -> T;
  max_pool2d : Pool2D -> T -> T;
  avg_pool2d : Pool2D -> T -> T;
  adaptive_avg_pool2d : AdaptiveAvgPool2D -> T -> T;
  concat : list T -> Z -> T;
  relu : T -> T;
  dropout : Dropout -> bool -> T -> T;   (* the flag is [self.training] *)
  flatten : T -> T;
  linear : Linear -> T -> T;
  transpose : T -> list Z -> T;
  stop_gradient : T -> T                 (* [inputs.stop_gradient = True] *)
}.

(** [def xavier(channels, filter_size, name)].  The bound is a real number
    here; Python raises [ZeroDivisionError] when the product is 0 and leaves
    the real numbers when it is negative, so the properties below take the
    product positive. *)
Definition xavier_stdv (channels filter_size : Z) : R :=
  sqrt (3 / IZR (filter_size ^ 2 * channels)).

Definition xavier (channels filter_size : Z) (name : string) : ParamAttr :=
  let stdv := xavier_stdv channels filter_size in
  let param_attr :=
    mkParamAttr (Some (Uniform (- stdv) stdv)) (name ++ "_weights")%string in
  param_attr.

(** *** class ConvLayer *)

Record ConvLayer : Type := mkConvLayer {
  _conv : Conv2D
}.

Definition ConvLayer_init (num_channels num_filters filter_size : Z)
    (stride groups : Z) (name : string) (data_format : string) : ConvLayer :=
  mkConvLayer
    (mkConv2D num_channels num_filters filter_size stride
       ((filter_size - 1) / 2) groups
       (mkParamAttr None (name ++ "_weights")%string)
       None
       data_format).

Definition ConvLayer_forward {T} {ops : TensorOps T} (self : ConvLayer)
    (inputs : T) : T :=
  let y := conv2d self.(_conv) inputs in
  y.

(** *** class Inception *)

Record Inception : Type := mkInception {
  inc_data_format : string;
  _conv1 : ConvLayer;
  _conv3r : ConvLayer;
  _conv3 : ConvLayer;
  _conv5r : ConvLayer;
  _conv5 : ConvLayer;
  _pool : Pool2D;
  _convprj : ConvLayer
}.

Definition Inception_init
    (input_channels output_channels filter1 filter3R filter3 filter5R filter5
       proj : Z) (name : string) (data_format : string) : Inception :=
  {| inc_data_format := data_format;
     _conv1 := ConvLayer_init input_channels filter1 1 1 1
                 ("inception_" ++ name ++ "_1x1")%string data_format;
     _conv3r := ConvLayer_init input_channels filter3R 1 1 1
                 ("inception_" ++ name ++ "_3x3_reduce")%string data_format;
     _conv3 := ConvLayer_init filter3R filter3 3 1 1
                 ("inception_" ++ name ++ "_3x3")%string data_format;
     _conv5r := ConvLayer_init input_channels filter5R 1 1 1
                 ("inception_" ++ name ++ "_5x5_reduce")%string data_format;
     _conv5 := ConvLayer_init filter5R filter5 5 1 1
                 ("inception_" ++ name ++ "_5x5")%string data_format;
     _pool := mkPool2D 3 1 1 data_format;
     _convprj := ConvLayer_init input_channels proj 1 1 1
                 ("inception_" ++ name ++ "_3x3_proj")%string data_format |}.

Definition Inception_forward {T} {ops : TensorOps T} (self : Inception)
    (inputs : T) : T :=
  let conv1 := ConvLayer_forward self.(_conv1) inputs in

  let conv3r := ConvLayer_forward self.(_conv3r) inputs in
  let conv3 := ConvLayer_forward self.(_conv3) conv3r in

  let conv5r := ConvLayer_forward self.(_conv5r) inputs in
  let conv5 := ConvLayer_forward self.(_conv5) conv5r in

  let pool := max_pool2d self.(_pool) inputs in
  let convprj := ConvLayer_forward self.(_convprj) pool in

  let cat :=
    if String.eqb self.(inc_data_format) "NHWC"
    then concat [conv1; conv3; conv5; convprj] 3
    else concat [conv1; conv3; conv5; convprj] 1 in
  let cat := relu cat in
  cat.

(** *** class GoogLeNetDY *)

Record GoogLeNetDY : Type := mkGoogLeNetDY {
  training : bool;                      (* [nn.Layer.training] *)
  data_format : string;
  g_conv : ConvLayer;                   (* [self._conv] *)
  g_pool : Pool2D;                      (* [self._pool] *)
  _conv_1 : ConvLayer;
  _conv_2 : ConvLayer;
  _ince3a : Inception;
  _ince3b : Inception;
  _ince4a : Inception;
  _ince4b : Inception;
  _ince4c : Inception;
  _ince4d : Inception;
  _ince4e : Inception;
  _ince5a : Inception;
  _ince5b : Inception;
  _pool_5 : AdaptiveAvgPool2D;
  _drop : Dropout;
  _fc_out : Linear;
  _pool_o1 : Pool2D;
  _conv_o1 : ConvLayer;
  _fc_o1 : Linear;
  _drop_o1 : Dropout;
  _out1 : Linear;
  _pool_o2 : Pool2D;
  _conv_o2 : ConvLayer;
  _fc_o2 : Linear;
  _drop_o2 : Dropout;
  _out2 : Linear
}.

(** [GoogLeNetDY.__init__(self, class_num=1000, data_format="NCHW")];
    a freshly built layer is in training mode. *)
Definition GoogLeNetDY_init (class_num : Z) (data_format : string)
  : GoogLeNetDY :=
  {| training := true;
     data_format := data_format;
     g_conv := ConvLayer_init 3 64 7 2 1 "conv1" data_format;
     g_pool := mkPool2D 3 2 0 data_format;
     _conv_1 := ConvLayer_init 64 64 1 1 1 "conv2_1x1" data_format;
     _conv_2 := ConvLayer_init 64 192 3 1 1 "conv2_3x3" data_format;

     _ince3a := Inception_init 192 192 64 96 128 16 32 32 "ince3a" data_format;
     _ince3b := Inception_init 256 256 128 128 192 32 96 64 "ince3b" data_format;

     _ince4a := Inception_init 480 480 192 96 208 16 48 64 "ince4a" data_format;
     _ince4b := Inception_init 512 512 160 112 224 24 64 64 "ince4b" data_format;
     _ince4c := Inception_init 512 512 128 128 256 24 64 64 "ince4c" data_format;
     _ince4d := Inception_init 512 512 112 144 288 32 64 64 "ince4d" data_format;
     _ince4e := Inception_init 528 528 256 160 320 32 128 128 "ince4e" data_format;

     _ince5a := Inception_init 832 832 256 160 320 32 128 128 "ince5a" data_format;
     _ince5b := Inception_init 832 832 384 192 384 48 128 128 "ince5b" data_format;

     _pool_5 := mkAdaptiveAvgPool2D 1 data_format;

     _drop := mkDropout (4 # 10) "downscale_in_infer";
     _fc_out := mkLinear 1024 class_num (xavier 1024 1 "out")
                  (mkParamAttr None "out_offset");
     _pool_o1 := mkPool2D 5 3 0 data_format;
     _conv_o1 := ConvLayer_init 512 128 1 1 1 "conv_o1" data_format;
     _fc_o1 := mkLinear 1152 1024 (xavier 2048 1 "fc_o1")
                  (mkParamAttr None "fc_o1_offset");
     _drop_o1 := mkDropout (7 # 10) "downscale_in_infer";
     _out1 := mkLinear 1024 class_num (xavier 1024 1 "out1")
                  (mkParamAttr None "out1_offset");
     _pool_o2 := mkPool2D 5 3 0 data_format;
     _conv_o2 := ConvLayer_init 528 128 1 1 1 "conv_o2" data_format;
     _fc_o2 := mkLinear 1152 1024 (xavier 2048 1 "fc_o2")
                  (mkParamAttr None "fc_o2_offset");
     _drop_o2 := mkDropout (7 # 10) "downscale_in_infer";
     _out2 := mkLinear 1024 class_num (xavier 1024 1 "out2")
                  (mkParamAttr None "out2_offset") |}.

(** [model.train()] / [model.eval()] *)
Definition set_training (b : bool) (self : GoogLeNetDY) : GoogLeNetDY :=
  {| training := b;
     data_format := self.(data_format);
     g_conv := self.(g_conv); g_pool := self.(g_pool);
     _conv_1 := self.(_conv_1); _conv_2 := self.(_conv_2);
     _ince3a := self.(_ince3a); _ince3b := self.(_ince3b);
     _ince4a := self.(_ince4a); _ince4b := self.(_ince4b);
     _ince4c := self.(_ince4c); _ince4d := self.(_ince4d);
     _ince4e := self.(_ince4e);
     _ince5a := self.(_ince5a); _ince5b := self.(_ince5b);
     _pool_5 := self.(_pool_5); _drop := self.(_drop);
     _fc_out := self.(_fc_out);
     _pool_o1 := self.(_pool_o1); _conv_o1 := self.(_conv_o1);
     _fc_o1 := self.(_fc_o1); _drop_o1 := self.(_drop_o1);
     _out1 := self.(_out1);
     _pool_o2 := self.(_pool_o2); _conv_o2 := self.(_conv_o2);
     _fc_o2 := self.(_fc_o2); _drop_o2 := self.(_drop_o2);
     _out2 := self.(_out2) |}.

Definition GoogLeNetDY_forward {T} {ops : TensorOps T} (self : GoogLeNetDY)
    (inputs : T) : list T :=
  let inputs :=
    if String.eqb self.(data_format) "NHWC"
    then stop_gradient (transpose inputs [0; 2; 3; 1]%Z)
    else inputs in
  let x := ConvLayer_forward self.(g_conv) inputs in
  let x := max_pool2d self.(g_pool) x in
  let x := ConvLayer_forward self.(_conv_1) x in
  let x := ConvLayer_forward self.(_conv_2) x in
  let x := max_pool2d self.(g_pool) x in

  let x := Inception_forward self.(_ince3a) x in
  let x := Inception_forward self.(_ince3b) x in
  let x := max_pool2d self.(g_pool) x in

  let ince4a := Inception_forward self.(_ince4a) x in
  let x := Inception_forward self.(_ince4b) ince4a in
  let x := Inception_forward self.(_ince4c) x in
  let ince4d := Inception_forward self.(_ince4d) x in
  let x := Inception_forward self.(_ince4e) ince4d in
  let x := max_pool2d self.(g_pool) x in

  let x := Inception_forward self.(_ince5a) x in
  let ince5b := Inception_forward self.(_ince5b) x in

  let x := adaptive_avg_pool2d self.(_pool_5) ince5b in
  let x := dropout self.(_drop) self.(training) x in
  let x := flatten x in
  let out := linear self.(_fc_out) x in

  let x := avg_pool2d self.(_pool_o1) ince4a in
  let x := ConvLayer_forward self.(_conv_o1) x in
  let x := flatten x in
  let x := linear self.(_fc_o1) x in
  let x := relu x in
  let x := dropout self.(_drop_o1) self.(training) x in
  let out1 := linear self.(_out1) x in

  let x := avg_pool2d self.(_pool_o2) ince4d in
  let x := ConvLayer_forward self.(_conv_o2) x in
  let x := flatten x in
  let x := linear self.(_fc_o2) x in
  let x := dropout self.(_drop_o2) self.(training) x in
  let out2 := linear self.(_out2) x in
  [out; out1; out2].

(** *** Loading pretrained weights *)

(** The values [pretrained] can be bound to. *)
Inductive pyvalue : Type :=
| PyNone
| PyBool (b : bool)
| PyInt (z : Z)
| PyFloat (q : Q)
| PyStr (s : string)
| PyObject (type_name : string).

(** [v is False], [v is True] *)
Definition is_False (v : pyvalue) : bool :=
  match v with PyBool false => true | _ => false end.

Definition is_True (v : pyvalue) : bool :=
  match v with PyBool true => true | _ => false end.

(** [isinstance(v, str)], with the string when it holds *)
Definition isinstance_str (v : pyvalue) : option string :=
  match v with PyStr s => Some s | _ => None end.

(** [ppcls/utils/save_load.py] is outside the sources at hand: its two
    loaders are taken as an interface.  Each receives the model and gives
    back the model as the call leaves it, or raises. *)
Class SaveLoad : Type := {
  load_dygraph_pretrain : GoogLeNetDY -> string -> result GoogLeNetDY;
  load_dygraph_pretrain_from_url :
    GoogLeNetDY -> string -> bool -> result GoogLeNetDY
}.

(** [def _load_pretrained(pretrained, model, model_url, use_ssld=False)];
    the result is the state of [model] when the call returns. *)
Definition _load_pretrained {SL : SaveLoad} (pretrained : pyvalue)
    (model : GoogLeNetDY) (model_url : string) (use_ssld : bool)
  : result GoogLeNetDY :=
  if is_False pretrained then ret model
  else if is_True pretrained
  then load_dygraph_pretrain_from_url model model_url use_ssld
  else match isinstance_str pretrained with
       | Some path => load_dygraph_pretrain model path
       | None =>
           raise (RuntimeError
             "pretrained type is not available. Please use `string` or `boolean` type.")
       end.

(** [**kwargs] of [GoogLeNet], handed on to [GoogLeNetDY]. *)
Record Kwargs : Type := mkKwargs {
  kw_class_num : option Z;
  kw_data_format : option string
}.

Definition GoogLeNetDY_new (kwargs : Kwargs) : GoogLeNetDY :=
  GoogLeNetDY_init
    (match kwargs.(kw_class_num) with Some c => c | None => 1000%Z end)
    (match kwargs.(kw_data_format) with Some f => f | None => "NCHW"%string end).

(** [def GoogLeNet(pretrained=False, use_ssld=False, **kwargs)] *)
Definition GoogLeNet {SL : SaveLoad} (pretrained : pyvalue) (use_ssld : bool)
    (kwargs : Kwargs) : result GoogLeNetDY :=
  let model := GoogLeNetDY_new kwargs in
  url <- dict_get MODEL_URLS "GoogLeNet" ;;
  model <- _load_pretrained pretrained model url use_ssld ;;
  ret model.

(** *** Two carriers for the tensor operations *)

(** The free carrier: a tensor is the expression that computes it, so the
    dataflow of a forward pass can be read off its result. *)
Inductive term : Type :=
| TInput (name : string)
| TConv2D (c : Conv2D) (x : term)
| TMaxPool2D (c : Pool2D) (x : term)
| TAvgPool2D (c : Pool2D) (x : term)
| TAdaptiveAvgPool2D (c : AdaptiveAvgPool2D) (x : term)
| TConcat (xs : list term) (axis : Z)
| TRelu (x : term)
| TDropout (c : Dropout) (training : bool) (x : term)
| TFlatten (x : term)
| TLinear (c : Linear) (x : term)
| TTranspose (x : term) (perm : list Z)
| TStopGradient (x : term).

#[export] Instance term_ops : TensorOps term := {|
  conv2d := TConv2D;
  max_pool2d := TMaxPool2D;
  avg_pool2d := TAvgPool2D;
  adaptive_avg_pool2d := TAdaptiveAvgPool2D;
  concat := TConcat;
  relu := TRelu;
  dropout := TDropout;
  flatten := TFlatten;
  linear := TLinear;
  transpose := TTranspose;
  stop_gradient := TStopGradient
|}.

(** The shape carrier: a tensor is its shape, [None] once an operation has
    rejected its operand.  The rules are those of the framework: a window
    of size [k], stride [s] and padding [p] maps an extent [h] to
    [(h + 2p - k) / s + 1]. *)
Definition shape : Type := list Z.

Definition conv_out (h k s p : Z) : Z := ((h + 2 * p - k) / s + 1)%Z.

Definition read_layout (fmt : string) (s : shape) : option (Z * Z * Z * Z) :=
  match s with
  | [d0; d1; d2; d3] =>
      if String.eqb fmt "NCHW" then Some (d0, d1, d2, d3)
      else if String.eqb fmt "NHWC" then Some (d0, d3, d1, d2)
      else None
  | _ => None
  end.

Definition write_layout (fmt : string) (n c h w : Z) : shape :=
  if String.eqb fmt "NHWC" then [n; h; w; c] else [n; c; h; w].

Definition shape_window (fmt : string) (k s p : Z) (chan : Z -> option Z)
    (x : option shape) : option shape :=
  match x with
  | None => None
  | Some sh =>
      match read_layout fmt sh with
      | None => None
      | Some (n, c, h, w) =>
          match chan c with
          | None => None
          | Some c' =>
              let h' := conv_out h k s p in
              let w' := conv_out w k s p in
              if ((0 <? s) && (0 <=? p) && (0 <? k)
                  && (0 <? h') && (0 <? w'))%bool%Z
              then Some (write_layout fmt n c' h' w')
              else None
          end
      end
  end.

Definition shape_conv2d (c : Conv2D) : option shape -> option shape :=
  shape_window c.(conv_data_format) c.(kernel_size) c.(stride) c.(padding)
    (fun ci =>
       if ((ci =? c.(in_channels)) && (0 <? c.(groups))
           && (c.(in_channels) mod c.(groups) =? 0)
           && (c.(out_channels) mod c.(groups) =? 0))%bool%Z
       then Some c.(out_channels) else None).

Definition shape_pool2d (c : Pool2D) : option shape -> option shape :=
  shape_window c.(pool_data_format) c.(pool_kernel_size) c.(pool_stride)
    c.(pool_padding) (fun ci => Some ci).

Definition shape_adaptive (c : AdaptiveAvgPool2D) (x : option shape)
  : option shape :=
  match x with
  | None => None
  | Some sh =>
      match read_layout c.(adaptive_data_format) sh with
      | None => None
      | Some (n, ch, _, _) =>
          Some (write_layout c.(adaptive_data_format) n ch
                  c.(output_size) c.(output_size))
      end
  end.

Fixpoint sequence {A} (l : list (option A)) : option (list A) :=
  match l with
  | [] => Some []
  | None :: _ => None
  | Some a :: l' =>
      match sequence l' with
      | Some r => Some (a :: r)
      | None => None
      end
  end.

Fixpoint replace_nth (i : nat) (v : Z) (s : shape) : shape :=
  match s, i with
  | [], _ => []
  | _ :: s', O => v :: s'
  | d :: s', S i' => d :: replace_nth i' v s'
  end.

(** Two shapes that may be joined along [axis]. *)
Definition agree_except (axis : nat) (s t : shape) : bool :=
  ((length s =? length t)%nat
   && forallb (fun i => (i =? axis)%nat || (nth i s 0 =? nth i t 0)%Z)
        (seq 0 (length s)))%bool.

Definition shape_concat (xs : list (option shape)) (axis : Z) : option shape :=
  match sequence xs with
  | Some (s0 :: rest) =>
      let a := Z.to_nat axis in
      if ((0 <=? axis)%Z && (a <? length s0)%nat
          && forallb (agree_except a s0) rest)%bool
      then Some (replace_nth a
                   (fold_right Z.add 0%Z (map (fun s => nth a s 0%Z) (s0 :: rest)))
                   s0)
      else None
  | _ => None
  end.

(** [nn.Flatten()]: every axis after the first is merged. *)
Definition shape_flatten (x : option shape) : option shape :=
  match x with
  | Some (d0 :: d1 :: rest) => Some [d0; fold_right Z.mul 1%Z (d1 :: rest)]
  | _ => None
  end.

Definition shape_linear (c : Linear) (x : option shape) : option shape :=
  match x with
  | Some sh =>
      match rev sh with
      | d :: front =>
          if (d =? c.(in_features))%Z
          then Some (rev (c.(out_features) :: front))
          else None
      | [] => None
      end
  | None => None
  end.

Definition shape_transpose (x : option shape) (perm : list Z) : option shape :=
  match x with
  | Some sh =>
      if ((length perm =? length sh)%nat
          && forallb (fun i => existsb (Z.eqb (Z.of_nat i)) perm)
               (seq 0 (length sh)))%bool
      then Some (map (fun i => nth (Z.to_nat i) sh 0%Z) perm)
      else None
  | None => None
  end.

#[export] Instance shape_ops : TensorOps (option shape) := {|
  conv2d := shape_conv2d;
  max_pool2d := shape_pool2d;
  avg_pool2d := shape_pool2d;
  adaptive_avg_pool2d := shape_adaptive;
  concat := shape_concat;
  relu := fun x => x;
  dropout := fun _ _ x => x;
  flatten := shape_flatten;
  linear := shape_linear;
  transpose := shape_transpose;
  stop_gradient := fun x => x
|}.

End GoogLeNetPy.

Import PyInfer.
Import GoogLeNetPy.

Unset Implicit Arguments.

(** * Vocabulary of the properties *)

(** What the library documents of [argsort]: [order] lists every position
    of [prob] once, by non-decreasing score. *)
Definition ascending_on (prob : list Q) (order : list nat) : Prop :=
  Permutation order (seq 0 (length prob)) /\
  StronglySorted (fun i j => key prob i <= key prob j) order.

(** A test that decides it on a given result. *)
Fixpoint nodupb (l : list N) : bool :=
  match l with
  | [] => true
  | x :: l' => negb (existsb (N.eqb x) l') && nodupb l'
  end.

Fixpoint sortedb (prob : list Q) (l : list nat) : bool :=
  match l with
  | i :: l' =>
      match l' with
      | j :: _ => Qle_bool (key prob i) (key prob j) && sortedb prob l'
      | [] => true
      end
  | [] => true
  end.

Definition ascending_onb (prob : list Q) (order : list nat) : bool :=
  ((length order =? length prob)%nat
   && forallb (fun i => (i <? length prob)%nat) order
   && nodupb (map N.of_nat order)
   && sortedb prob order)%bool.

Definition pair_at (prob : list Q) (i : nat) : Z * Q :=
  (Z.of_nat i, key prob i).



(** The test applied to a name: its last dot-separated field is one of the
    enumerated extensions. *)
Definition matching (name : string) : bool :=
  str_in (last_field name) img_end.

Fixpoint no_dot (s : string) : bool :=
  match s with
  | EmptyString => true
  | String c s' => negb (Ascii.eqb c ".") && no_dot s'
  end.

(** The outcome of [get_image_list] by what the path names. *)
Definition image_list_outcome (fs : filesystem) (img_file : string)
  : result (list string) :=
  match fs img_file with
  | None => inl (not_found img_file)
  | Some File =>
      if matching img_file then inr [img_file] else inl (not_found img_file)
  | Some (Dir entries) =>
      match map (join img_file) (filter matching entries) with
      | [] => inl (not_found img_file)
      | found => inr found
      end
  | Some Special => inl (not_found img_file)
  end.

Definition fs_ex : filesystem := fun path =>
  if String.eqb path "imgs"
  then Some (Dir ["a.jpg"; "b.txt"; "c.tar.png"; "d.PNG"; "bmp"]%string)
  else if String.eqb path "photo.PNG" then Some File
  else if String.eqb path "photo.tiff" then Some File
  else if String.eqb path "x.jpeg" then Some File
  else None.

Definition bool_or_str (v : pyvalue) : bool :=
  match v with
  | PyBool _ | PyStr _ => true
  | _ => false
  end.

Definition pretrained_type_error : exn :=
  RuntimeError
    "pretrained type is not available. Please use `string` or `boolean` type.".

Definition googlenet_url : string :=
  "https://paddle-imagenet-models-name.bj.bcebos.com/dygraph/GoogLeNet_pretrained.pdparams".

(** A loader that reports the checkpoint as missing, for concrete runs. *)
Definition failing_loader : SaveLoad := {|
  load_dygraph_pretrain := fun _ path => inl (Exception path);
  load_dygraph_pretrain_from_url := fun _ url _ => inl (Exception url)
|}.

Definition no_kwargs : Kwargs := mkKwargs None None.

(** The bound of a layer's uniform initializer has square [v]. *)
Definition bound_square (fc : Linear) (v : R) : Prop :=
  exists b : R,
    initializer (linear_weight_attr fc) = Some (Uniform (- b) b) /\
    (b * b = v)%R.

(** The bound is scaled by the layer's own input feature count (kernel
    area 1). *)
Definition scaled_by_fan_in (fc : Linear) : Prop :=
  bound_square fc (3 / IZR (1 ^ 2 * in_features fc)).

Definition valid_format (fmt : string) : Prop :=
  fmt = "NCHW"%string \/ fmt = "NHWC"%string.

(** The axis the channels live on. *)
Definition channel_axis (fmt : string) : Z :=
  if String.eqb fmt "NHWC" then 3%Z else 1%Z.

Section InceptionBranches.

Context {T : Type} {ops : TensorOps T}.

(** The four branches, in the words of the specification. *)
Definition branch_1x1 (self : Inception) (x : T) : T :=
  conv2d (_conv (_conv1 self)) x.

Definition branch_3x3 (self : Inception) (x : T) : T :=
  conv2d (_conv (_conv3 self)) (conv2d (_conv (_conv3r self)) x).

Definition branch_5x5 (self : Inception) (x : T) : T :=
  conv2d (_conv (_conv5 self)) (conv2d (_conv (_conv5r self)) x).

Definition branch_proj (self : Inception) (x : T) : T :=
  conv2d (_conv (_convprj self)) (max_pool2d (_pool self) x).

End InceptionBranches.

(** The convolution of a [ConvLayer] in the words of the specification:
    [cout] filters of size k x k, no bias, stride 1 and padding [(k-1)/2],
    the weight named [name + "_weights"]. *)
Definition same_conv (cin cout k : Z) (name fmt : string) : Conv2D :=
  mkConv2D cin cout k 1 ((k - 1) / 2) 1
    (mkParamAttr None (name ++ "_weights")%string) None fmt.

Section InceptionSpec.

Context {T : Type} {ops : TensorOps T}.
Variables (cin : Z) (name fmt : string).

(** The 1x1 branch. *)
Definition inception_1x1 (f1 : Z) (x : T) : T :=
  conv2d (same_conv cin f1 1 ("inception_" ++ name ++ "_1x1") fmt) x.

(** The 3x3 branch behind its 1x1 reduction. *)
Definition inception_3x3 (f3R f3 : Z) (x : T) : T :=
  conv2d (same_conv f3R f3 3 ("inception_" ++ name ++ "_3x3") fmt)
    (conv2d
       (same_conv cin f3R 1 ("inception_" ++ name ++ "_3x3_reduce") fmt) x).

(** The 5x5 branch behind its 1x1 reduction. *)
Definition inception_5x5 (f5R f5 : Z) (x : T) : T :=
  conv2d (same_conv f5R f5 5 ("inception_" ++ name ++ "_5x5") fmt)
    (conv2d
       (same_conv cin f5R 1 ("inception_" ++ name ++ "_5x5_reduce") fmt) x).

(** The projection branch: 3x3 max pooling with stride 1 and padding 1,
    then a 1x1 convolution. *)
Definition inception_proj (proj : Z) (x : T) : T :=
  conv2d (same_conv cin proj 1 ("inception_" ++ name ++ "_3x3_proj") fmt)
    (max_pool2d (mkPool2D 3 1 1 fmt) x).

End InceptionSpec.

(** A file system that knows the listing of a directory and nothing about
    its entries. *)
Definition fs_listing : filesystem := fun path =>
  if String.eqb path "imgs" then Some (Dir ["a.jpg"; "notes.txt"]%string)
  else None.

Definition ince3a_example : Inception :=
  Inception_init 192 192 64 96 128 16 32 32 "ince3a" "NCHW".

Section Heads.

Context {T : Type} {ops : TensorOps T}.

(** The pass up to the pooling in front of stage 4. *)
Definition stage3_output (self : GoogLeNetDY) (inputs : T) : T :=
  let inputs :=
    if String.eqb (data_format self) "NHWC"
    then stop_gradient (transpose inputs [0; 2; 3; 1]%Z)
    else inputs in
  max_pool2d (g_pool self)
    (Inception_forward (_ince3b self)
       (Inception_forward (_ince3a self)
          (max_pool2d (g_pool self)
             (ConvLayer_forward (_conv_2 self)
                (ConvLayer_forward (_conv_1 self)
                   (max_pool2d (g_pool self)
                      (ConvLayer_forward (g_conv self) inputs))))))).

(** The tap behind the first module of stage 4 ... *)
Definition tap_ince4a (self : GoogLeNetDY) (inputs : T) : T :=
  Inception_forward (_ince4a self) (stage3_output self inputs).

(** ... and the tap behind its fourth module. *)
Definition tap_ince4d (self : GoogLeNetDY) (inputs : T) : T :=
  Inception_forward (_ince4d self)
    (Inception_forward (_ince4c self)
       (Inception_forward (_ince4b self) (tap_ince4a self inputs))).

Definition main_head (self : GoogLeNetDY) (inputs : T) : T :=
  linear (_fc_out self)
    (flatten
       (dropout (_drop self) (training self)
          (adaptive_avg_pool2d (_pool_5 self)
             (Inception_forward (_ince5b self)
                (Inception_forward (_ince5a self)
                   (max_pool2d (g_pool self)
                      (Inception_forward (_ince4e self)
                         (tap_ince4d self inputs)))))))).

(** Everything of an auxiliary head in front of its first linear layer:
    average pooling, 1x1 convolution, flatten. *)
Definition aux_features (pool : Pool2D) (conv : ConvLayer) (tap : T) : T :=
  flatten (ConvLayer_forward conv (avg_pool2d pool tap)).

(** Head 1: linear, activation, dropout, linear. *)
Definition aux_head1 (self : GoogLeNetDY) (tap : T) : T :=
  linear (_out1 self)
    (dropout (_drop_o1 self) (training self)
       (relu
          (linear (_fc_o1 self)
             (aux_features (_pool_o1 self) (_conv_o1 self) tap)))).

(** Head 2: linear, dropout, linear. *)
Definition aux_head2 (self : GoogLeNetDY) (tap : T) : T :=
  linear (_out2 self)
    (dropout (_drop_o2 self) (training self)
       (linear (_fc_o2 self)
          (aux_features (_pool_o2 self) (_conv_o2 self) tap))).

End Heads.

(** ** Further vocabulary *)

(** The spellings [str2bool] takes for true. *)
Definition true_spellings : list string :=
  ["1"; "t"; "T";
   "true"; "truE"; "trUe"; "trUE"; "tRue"; "tRuE"; "tRUe"; "tRUE";
   "True"; "TruE"; "TrUe"; "TrUE"; "TRue"; "TRuE"; "TRUe"; "TRUE"]%string.

(** A small tree with a picture inside a directory. *)
Definition fs_tree : filesystem := fun path =>
  if String.eqb path "imgs" then Some (Dir ["a.jpg"; "notes.txt"]%string)
  else if String.eqb path "imgs/a.jpg" then Some File
  else None.

(** The extent of an axis in front of stage 4 (after the stem and three
    poolings), behind the pooling of an auxiliary head, and in stage 5. *)
Definition stage4_extent (h : Z) : Z :=
  conv_out (conv_out (conv_out (conv_out h 7 2 3) 3 2 0) 3 2 0) 3 2 0.

Definition aux_extent (h : Z) : Z := conv_out (stage4_extent h) 5 3 0.

Definition stage5_extent (h : Z) : Z := conv_out (stage4_extent h) 3 2 0.

(** The names under which the parameters of the network are created. *)
Definition conv_parameters (c : ConvLayer) : list string :=
  attr_name (weight_attr (_conv c))
  :: match bias_attr (_conv c) with
     | Some b => [attr_name b]
     | None => []
     end.

Definition linear_parameters (l : Linear) : list string :=
  [attr_name (linear_weight_attr l); attr_name (linear_bias_attr l)].

Definition inception_parameters (i : Inception) : list string :=
  conv_parameters (_conv1 i) ++ conv_parameters (_conv3r i)
  ++ conv_parameters (_conv3 i) ++ conv_parameters (_conv5r i)
  ++ conv_parameters (_conv5 i) ++ conv_parameters (_convprj i).

Definition parameter_names (m : GoogLeNetDY) : list string :=
  conv_parameters (g_conv m) ++ conv_parameters (_conv_1 m)
  ++ conv_parameters (_conv_2 m)
  ++ inception_parameters (_ince3a m) ++ inception_parameters (_ince3b m)
  ++ inception_parameters (_ince4a m) ++ inception_parameters (_ince4b m)
  ++ inception_parameters (_ince4c m) ++ inception_parameters (_ince4d m)
  ++ inception_parameters (_ince4e m)
  ++ inception_parameters (_ince5a m) ++ inception_parameters (_ince5b m)
  ++ linear_parameters (_fc_out m)
  ++ conv_parameters (_conv_o1 m) ++ linear_parameters (_fc_o1 m)
  ++ linear_parameters (_out1 m)
  ++ conv_parameters (_conv_o2 m) ++ linear_parameters (_fc_o2 m)
  ++ linear_parameters (_out2 m).

Fixpoint distinct (l : list string) : bool :=
  match l with
  | [] => true
  | x :: l' => negb (str_in x l') && distinct l'
  end.

(** * Sample runs *)

Example postprocess_top2 :
  postprocess [Array2 [[1 # 10; 7 # 10; 2 # 10]]] 2
  = inr [(1, 7 # 10); (2, 2 # 10)]%Z.
Proof. vm_compute. reflexivity. Qed.

Example postprocess_no_output : postprocess [] 5 = inl IndexError.
Proof. reflexivity. Qed.

Example get_image_list_directory :
  get_image_list fs_ex (Some "imgs"%string)
  = inr ["imgs/a.jpg"; "imgs/c.tar.png"; "imgs/bmp"]%string.
Proof. vm_compute. reflexivity. Qed.

Example forward_shapes :
  GoogLeNetDY_forward (GoogLeNetDY_init 1000 "NCHW") (Some [1; 3; 224; 224]%Z)
  = [Some [1; 1000]%Z; Some [1; 1000]%Z; Some [1; 1000]%Z].
Proof. vm_compute. reflexivity. Qed.

Example forward_shapes_nhwc :
  GoogLeNetDY_forward (GoogLeNetDY_init 1000 "NHWC") (Some [1; 3; 224; 224]%Z)
  = [Some [1; 1000]%Z; Some [1; 1000]%Z; Some [1; 1000]%Z].
Proof. vm_compute. reflexivity. Qed.

(** * Properties of [postprocess] *)

Lemma nodupb_NoDup : forall l, nodupb l = true -> NoDup l.
Proof.
  induction l as [| x l IH]; simpl; intros H; constructor.
  - apply andb_true_iff in H. destruct H as [H _].
    intros Hin. apply negb_true_iff in H.
    assert (E : existsb (N.eqb x) l = true).
    { apply existsb_exists. exists x. split; [exact Hin | apply N.eqb_refl]. }
    rewrite E in H. discriminate.
  - apply IH. apply andb_true_iff in H. tauto.
Qed.

Lemma sortedb_Sorted : forall prob l,
  sortedb prob l = true -> Sorted (fun i j => key prob i <= key prob j) l.
Proof.
  intros prob. induction l as [| i l IH]; intros H; [constructor |].
  destruct l as [| j l].
  - constructor; constructor.
  - cbn [sortedb] in H. apply andb_true_iff in H. destruct H as [Hij Hl].
    constructor; [apply IH; exact Hl |].
    constructor. apply Qle_bool_iff. exact Hij.
Qed.

(** The test is sound. *)
Lemma ascending_onb_sound : forall prob order,
  ascending_onb prob order = true -> ascending_on prob order.
Proof.
  intros prob order H. unfold ascending_onb in H.
  apply andb_true_iff in H. destruct H as [H Hs].
  apply andb_true_iff in H. destruct H as [H Hd].
  apply andb_true_iff in H. destruct H as [Hl Hb].
  apply Nat.eqb_eq in Hl. split.
  - apply NoDup_Permutation_bis.
    + apply (NoDup_map_inv N.of_nat), nodupb_NoDup. exact Hd.
    + rewrite length_seq. lia.
    + intros i Hi. rewrite forallb_forall in Hb.
      apply Hb, Nat.ltb_lt in Hi. apply in_seq. lia.
  - apply Sorted_StronglySorted.
    + intros x y z. apply Qle_trans.
    + apply sortedb_Sorted. exact Hs.
Qed.

Section Ascending.

Context {AS : ArgSort}.
Variable prob : list Q.
Hypothesis Hasc : ascending_on prob (argsort prob).

Lemma argsort_perm : Permutation (argsort prob) (seq 0 (length prob)).
Proof. exact (proj1 Hasc). Qed.

Lemma argsort_sorted :
  StronglySorted (fun i j => key prob i <= key prob j) (argsort prob).
Proof. exact (proj2 Hasc). Qed.

Lemma argsort_length : length (argsort prob) = length prob.
Proof.
  rewrite (Permutation_length argsort_perm). apply length_seq.
Qed.

Lemma argsort_bound : forall i, In i (argsort prob) -> (i < length prob)%nat.
Proof.
  intros i Hi. apply (Permutation_in _ argsort_perm) in Hi.
  apply in_seq in Hi. lia.
Qed.

Lemma argsort_NoDup : NoDup (argsort prob).
Proof.
  apply (Permutation_NoDup (Permutation_sym argsort_perm)).
  apply seq_NoDup.
Qed.

End Ascending.

(** ** What [postprocess] returns *)

Lemma astype_int32_small : forall i,
  (0 <= i < 2 ^ 31)%Z -> astype_int32 i = i.
Proof.
  intros i Hi. unfold astype_int32.
  rewrite Z.mod_small; lia.
Qed.

Lemma getitem_in_range : forall prob i,
  (i < length prob)%nat -> getitem prob (Z.of_nat i) = inr (key prob i).
Proof.
  intros prob i Hi. unfold getitem, key.
  replace ((0 <=? Z.of_nat i)%Z && (Z.of_nat i <? Z.of_nat (length prob))%Z)
    with true.
  - simpl. rewrite Nat2Z.id. reflexivity.
  - symmetry. apply andb_true_iff. split; [apply Z.leb_le | apply Z.ltb_lt]; lia.
Qed.

Lemma mapM_getitem : forall prob l,
  (Z.of_nat (length prob) <= 2 ^ 31)%Z ->
  Forall (fun i => (i < length prob)%nat) l ->
  map astype_int32 (map Z.of_nat l) = map Z.of_nat l /\
  mapM (getitem prob) (map Z.of_nat l) = inr (map (key prob) l).
Proof.
  intros prob l Hn. induction 1 as [| i l Hi _ [IH1 IH2]]; simpl.
  - split; reflexivity.
  - rewrite IH1, IH2, getitem_in_range by exact Hi.
    rewrite astype_int32_small by lia. split; reflexivity.
Qed.

Lemma combine_pair_at : forall prob l,
  combine (map Z.of_nat l) (map (key prob) l) = map (pair_at prob) l.
Proof.
  intros prob l. induction l as [| i l IH]; simpl; [| rewrite IH]; reflexivity.
Qed.

Lemma In_skipn : forall (A : Type) n (l : list A) x,
  In x (skipn n l) -> In x l.
Proof.
  intros A n l x H. rewrite <- (firstn_skipn n l). apply in_or_app. now right.
Qed.

Lemma postprocess_eq : forall (AS : ArgSort) output rest topk,
  ascending_on (PyInfer.flatten output) (argsort (PyInfer.flatten output)) ->
  (Z.of_nat (length (PyInfer.flatten output)) <= 2 ^ 31)%Z ->
  postprocess (output :: rest) topk
  = inr (map (pair_at (PyInfer.flatten output))
           (rev (slice_from (- topk) (argsort (PyInfer.flatten output))))).
Proof.
  intros AS output rest topk Hasc Hn. unfold postprocess. simpl.
  set (prob := PyInfer.flatten output) in *.
  set (l := rev (slice_from (- topk) (argsort prob))).
  assert (Hl : Forall (fun i => (i < length prob)%nat) l).
  { apply Forall_forall. intros i Hi. apply (argsort_bound prob Hasc).
    unfold l in Hi. apply in_rev in Hi. unfold slice_from in Hi.
    eapply In_skipn; exact Hi. }
  destruct (mapM_getitem prob l Hn Hl) as [E1 E2].
  rewrite E1, E2. simpl. unfold ret. rewrite combine_pair_at. reflexivity.
Qed.

Lemma StronglySorted_skipn : forall (A : Type) (R : A -> A -> Prop) n l,
  StronglySorted R l -> StronglySorted R (skipn n l).
Proof.
  intros A R n. induction n as [| n IH]; intros l Hs; simpl; [exact Hs |].
  destruct l as [| a l]; [constructor |].
  inversion Hs; subst. apply IH; assumption.
Qed.

Lemma StronglySorted_snoc : forall (A : Type) (R : A -> A -> Prop) l x,
  StronglySorted R l -> Forall (fun y => R y x) l ->
  StronglySorted R (l ++ [x]).
Proof.
  intros A R l x Hs. induction Hs as [| a l Hs IH Ha]; intros Hx; simpl.
  - constructor; constructor.
  - inversion Hx; subst. constructor; [apply IH; assumption |].
    apply Forall_app. split; [exact Ha | constructor; [assumption | constructor]].
Qed.

Lemma StronglySorted_rev : forall (A : Type) (R : A -> A -> Prop) l,
  StronglySorted R l -> StronglySorted (fun a b => R b a) (rev l).
Proof.
  intros A R l Hs. induction Hs as [| a l Hs IH Ha]; simpl.
  - constructor.
  - apply StronglySorted_snoc; [exact IH |].
    apply Forall_forall. intros y Hy. apply in_rev in Hy.
    rewrite Forall_forall in Ha. apply Ha; exact Hy.
Qed.

Lemma StronglySorted_map : forall (A B : Type) (f : A -> B)
    (R : B -> B -> Prop) l,
  StronglySorted (fun a b => R (f a) (f b)) l -> StronglySorted R (map f l).
Proof.
  intros A B f R l Hs. induction Hs as [| a l Hs IH Ha]; simpl.
  - constructor.
  - constructor; [exact IH |]. apply Forall_map. exact Ha.
Qed.

(** Whatever [topk] is, the pairs come out by non-increasing score. *)
Lemma selection_non_increasing : forall (AS : ArgSort) prob start,
  ascending_on prob (argsort prob) ->
  StronglySorted (fun a b => snd b <= snd a)
    (map (pair_at prob) (rev (slice_from start (argsort prob)))).
Proof.
  intros AS prob start Hasc. apply StronglySorted_map. simpl.
  apply (StronglySorted_rev nat (fun i j => key prob i <= key prob j)).
  unfold slice_from. apply StronglySorted_skipn, argsort_sorted, Hasc.
Qed.

(** The slice [[-topk:]] for a positive [topk]. *)
Lemma slice_start_positive : forall topk n,
  (1 <= topk)%Z -> slice_start (- topk) n = (n - Z.to_nat topk)%nat.
Proof.
  intros topk n Hk. unfold slice_start.
  destruct (Z.ltb_spec (- topk) 0); lia.
Qed.

Lemma slice_from_length : forall (A : Type) topk (l : list A),
  (1 <= topk)%Z ->
  length (slice_from (- topk) l) = Nat.min (Z.to_nat topk) (length l).
Proof.
  intros A topk l Hk. unfold slice_from.
  rewrite length_skipn, slice_start_positive by exact Hk. lia.
Qed.

Lemma StronglySorted_last : forall (A : Type) (R : A -> A -> Prop) l x,
  StronglySorted R (l ++ [x]) -> Forall (fun y => R y x) l.
Proof.
  intros A R l x. induction l as [| a l IH]; simpl; intros Hs.
  - constructor.
  - inversion Hs as [| ? ? Hs' Ha]; subst.
    constructor; [| apply IH; exact Hs'].
    rewrite Forall_forall in Ha. apply Ha, in_or_app. right. now left.
Qed.

(** With a unique largest score at position [m], [argsort] ends in [m]. *)
Lemma argsort_last_argmax : forall (AS : ArgSort) prob m,
  ascending_on prob (argsort prob) ->
  (m < length prob)%nat ->
  (forall j, (j < length prob)%nat -> j <> m -> key prob j < key prob m) ->
  exists front, argsort prob = front ++ [m].
Proof.
  intros AS prob m Hasc Hm Hmax.
  assert (Hin : In m (argsort prob)).
  { apply (Permutation_in _ (Permutation_sym (argsort_perm prob Hasc))).
    apply in_seq. lia. }
  assert (Hne : argsort prob <> []) by (intro E; rewrite E in Hin; exact Hin).
  destruct (exists_last Hne) as (front & x & E).
  exists front. rewrite E. f_equal. f_equal.
  destruct (Nat.eq_dec x m) as [-> | Hxm]; [reflexivity | exfalso].
  assert (Hx : (x < length prob)%nat).
  { apply (argsort_bound prob Hasc). rewrite E. apply in_or_app.
    right. now left. }
  pose proof (argsort_sorted prob Hasc) as Hs. rewrite E in Hs.
  apply StronglySorted_last in Hs. rewrite Forall_forall in Hs.
  rewrite E in Hin. apply in_app_or in Hin. destruct Hin as [Hin | [-> | []]].
  - apply Hs in Hin. simpl in Hin.
    specialize (Hmax x Hx Hxm).
    apply (Qlt_irrefl (key prob x)). eapply Qlt_le_trans; eassumption.
  - congruence.
Qed.

(** The positive part of the top-k contract: for [1 <= topk <= C] exactly
    [topk] pairs come back, by falling score, the position of a unique
    largest score first. *)
Lemma postprocess_topk : forall (AS : ArgSort) output rest topk,
  let prob := PyInfer.flatten output in
  ascending_on prob (argsort prob) ->
  (1 <= topk <= Z.of_nat (length prob))%Z ->
  (Z.of_nat (length prob) <= 2 ^ 31)%Z ->
  exists res,
    postprocess (output :: rest) topk = inr res /\
    Z.of_nat (length res) = topk /\
    StronglySorted (fun a b => snd b <= snd a) res /\
    (forall m,
       (m < length prob)%nat ->
       (forall j, (j < length prob)%nat -> j <> m -> key prob j < key prob m) ->
       exists tl, res = pair_at prob m :: tl).
Proof.
  intros AS output rest topk prob Hasc Hk Hn.
  eexists. split; [apply postprocess_eq; assumption |]. fold prob.
  split; [| split].
  - rewrite length_map, length_rev, slice_from_length by lia.
    rewrite (argsort_length prob Hasc). lia.
  - apply selection_non_increasing. exact Hasc.
  - intros m Hm Hmax.
    destruct (argsort_last_argmax AS prob m Hasc Hm Hmax) as [front E].
    pose proof (argsort_length prob Hasc) as Hlen. rewrite E in Hlen.
    rewrite length_app in Hlen. simpl in Hlen.
    unfold slice_from. rewrite slice_start_positive by lia.
    rewrite E, length_app. simpl.
    rewrite skipn_app.
    replace (length front + 1 - Z.to_nat topk - length front)%nat with 0%nat
      by lia.
    simpl. rewrite rev_app_distr. simpl. eexists. reflexivity.
Qed.

(** ** Equal scores *)


Lemma NoDup_skipn : forall (A : Type) n (l : list A),
  NoDup l -> NoDup (skipn n l).
Proof.
  intros A n l H. rewrite <- (firstn_skipn n l) in H.
  apply NoDup_app_remove_l in H. exact H.
Qed.

Lemma NoDup_map_of_nat : forall l, NoDup l -> NoDup (map Z.of_nat l).
Proof.
  induction 1 as [| i l Hi _ IH]; simpl; constructor; [| exact IH].
  intros H. apply in_map_iff in H. destruct H as (j & E & Hj).
  apply Nat2Z.inj in E. subst. contradiction.
Qed.




(** C2 at [topk = 0].  The slice [[-0:]] is the whole array: on a
    three-entry vector all three pairs come back, not zero pairs. *)
Theorem postprocess_topk_zero_returns_all :
  exists res,
    postprocess [Array2 [[1 # 10; 7 # 10; 2 # 10]]] 0 = inr res /\
    res = [(1, 7 # 10); (2, 2 # 10); (0, 1 # 10)]%Z /\
    length res = 3%nat /\
    Z.of_nat (length res) <> 0%Z.
Proof.
  eexists. split; [vm_compute; reflexivity |].
  split; [reflexivity |]. split; [reflexivity | discriminate].
Qed.

(** C9.  When the flattened vector has C entries and C < topk, all C
    (index, score) pairs come back and nothing is raised. *)
Theorem postprocess_short_vector :
  forall (AS : ArgSort) output rest topk,
    let prob := PyInfer.flatten output in
    ascending_on prob (argsort prob) ->
    (Z.of_nat (length prob) < topk)%Z ->
    (Z.of_nat (length prob) <= 2 ^ 31)%Z ->
    exists res,
      postprocess (output :: rest) topk = inr res /\
      length res = length prob /\
      Permutation res (map (pair_at prob) (seq 0 (length prob))).
Proof.
  intros AS output rest topk prob Hasc Hk Hn.
  eexists. split; [apply postprocess_eq; assumption |]. fold prob.
  assert (E : slice_from (- topk) (argsort prob) = argsort prob).
  { unfold slice_from. rewrite slice_start_positive by lia.
    rewrite (argsort_length prob Hasc).
    replace (length prob - Z.to_nat topk)%nat with 0%nat by lia.
    reflexivity. }
  split.
  - rewrite E, length_map, length_rev. apply (argsort_length prob Hasc).
  - rewrite E. apply Permutation_map.
    eapply Permutation_trans;
      [apply Permutation_sym, Permutation_rev
      | apply (argsort_perm prob Hasc)].
Qed.

Lemma postprocess_short_vector_witness :
  exists res,
    postprocess [Array1 [1 # 10; 7 # 10; 2 # 10]] 5 = inr res /\
    length res = 3%nat /\
    Permutation res [(0, 1 # 10); (1, 7 # 10); (2, 2 # 10)]%Z.
Proof.
  apply (postprocess_short_vector npy_quicksort
           (Array1 [1 # 10; 7 # 10; 2 # 10]) [] 5%Z).
  - apply ascending_onb_sound. vm_compute. reflexivity.
  - vm_compute. reflexivity.
  - vm_compute. discriminate.
Defined.

(** * Properties of [get_image_list] *)

Lemma split_dot_no_dot : forall e, no_dot e = true -> split_dot e = [e].
Proof.
  induction e as [| c e IH]; simpl; intros H; [reflexivity |].
  apply andb_true_iff in H. destruct H as [Hc He].
  destruct (Ascii.eqb c "."); [discriminate |].
  rewrite (IH He). reflexivity.
Qed.

Lemma split_dot_suffix : forall stem e,
  exists front, split_dot (stem ++ String "." e) = front ++ split_dot e
                /\ front <> [].
Proof.
  induction stem as [| c stem IH]; intros e; simpl.
  - exists [EmptyString]. split; [reflexivity | discriminate].
  - destruct (IH e) as (front & E & Hne). rewrite E.
    destruct (Ascii.eqb c ".").
    + exists (EmptyString :: front). split; [reflexivity | discriminate].
    + destruct front as [| w ws]; [contradiction |]. simpl.
      exists (String c w :: ws). split; [reflexivity | discriminate].
Qed.

Lemma split_dot_not_nil : forall s, split_dot s <> [].
Proof.
  destruct s as [| c s]; simpl; [discriminate |].
  destruct (Ascii.eqb c "."); [discriminate |].
  destruct (split_dot s); discriminate.
Qed.

Lemma last_app_not_nil : forall (A : Type) (l1 l2 : list A) d,
  l2 <> [] -> last (l1 ++ l2) d = last l2 d.
Proof.
  intros A l1 l2 d H. induction l1 as [| a l1 IH]; [reflexivity |].
  simpl. rewrite IH. destruct (l1 ++ l2) eqn:E; [| reflexivity].
  apply app_eq_nil in E. destruct E; contradiction.
Qed.

(** [last_field] is the part behind the last dot, or the whole name when
    it has no dot. *)
Lemma last_field_suffix : forall stem e,
  no_dot e = true -> last_field (stem ++ String "." e) = e.
Proof.
  intros stem e He. unfold last_field.
  destruct (split_dot_suffix stem e) as (front & E & _). rewrite E.
  rewrite last_app_not_nil by apply split_dot_not_nil.
  rewrite (split_dot_no_dot e He). reflexivity.
Qed.

Lemma last_field_no_dot : forall e, no_dot e = true -> last_field e = e.
Proof.
  intros e He. unfold last_field. rewrite (split_dot_no_dot e He). reflexivity.
Qed.

Lemma str_in_In : forall x l, str_in x l = true <-> In x l.
Proof.
  intros x l. unfold str_in. rewrite existsb_exists. split.
  - intros (y & Hy & E). apply String.eqb_eq in E. subst. exact Hy.
  - intros H. exists x. split; [exact H | apply String.eqb_refl].
Qed.

(** The loop over a directory listing is a filter followed by a map. *)
Lemma collect_entries : forall (dir : string) entries acc,
  fold_left
    (fun acc single_file =>
       if str_in (last_field single_file) img_end
       then acc ++ [join dir single_file]
       else acc)
    entries acc
  = acc ++ map (join dir) (filter matching entries).
Proof.
  intros dir entries. induction entries as [| f entries IH]; intros acc.
  - simpl. symmetry. apply app_nil_r.
  - cbn [fold_left filter].
    change (str_in (last_field f) img_end) with (matching f).
    rewrite IH. destruct (matching f); cbn [map].
    + rewrite <- app_assoc. reflexivity.
    + reflexivity.
Qed.

Lemma get_image_list_cases : forall (fs : filesystem) img_file,
  get_image_list fs (Some img_file) = image_list_outcome fs img_file.
Proof.
  intros fs img_file.
  unfold get_image_list, image_list_outcome, path_exists, isfile, isdir,
    listdir.
  destruct (fs img_file) as [[| entries |] |];
    cbn [negb andb]; try reflexivity.
  - change (str_in (last_field img_file) img_end) with (matching img_file).
    destruct (matching img_file); reflexivity.
  - cbn [bind ret]. rewrite collect_entries. cbn [app].
    destruct (map (join img_file) (filter matching entries)); reflexivity.
Qed.

(** C7.  [get_image_list] keeps exactly the names whose last
    dot-separated field is one of jpg, png, jpeg, JPEG, JPG, bmp: a
    matching regular file gives the singleton list, a directory gives its
    matching entries joined to the directory; [None], a missing path and an
    empty selection raise the not-found exception. *)
Theorem get_image_list_spec : forall fs : filesystem,
  get_image_list fs None = inl (not_found "None")
  /\
  (forall img_file,
     match fs img_file with
     | None => get_image_list fs (Some img_file) = inl (not_found img_file)
     | Some File =>
         get_image_list fs (Some img_file)
         = if matching img_file then inr [img_file]
           else inl (not_found img_file)
     | Some (Dir entries) =>
         get_image_list fs (Some img_file)
         = match map (join img_file) (filter matching entries) with
           | [] => inl (not_found img_file)
           | found => inr found
           end
     | Some Special =>
         get_image_list fs (Some img_file) = inl (not_found img_file)
     end)
  /\
  (forall name,
     matching name = true <->
     In (last_field name) ["jpg"; "png"; "jpeg"; "JPEG"; "JPG"; "bmp"]%string)
  /\
  (forall stem e, no_dot e = true ->
     last_field (stem ++ String "." e) = e /\ last_field e = e).
Proof.
  intros fs. split; [reflexivity |]. split; [| split].
  - intros img_file. rewrite get_image_list_cases.
    unfold image_list_outcome.
    destruct (fs img_file) as [[| entries |] |]; reflexivity.
  - intros name. apply str_in_In.
  - intros stem e He. split.
    + apply last_field_suffix; exact He.
    + apply last_field_no_dot; exact He.
Qed.

Lemma get_image_list_spec_witness :
  get_image_list fs_ex (Some "imgs"%string)
  = inr ["imgs/a.jpg"; "imgs/c.tar.png"; "imgs/bmp"]%string
  /\ get_image_list fs_ex (Some "x.jpeg"%string) = inr ["x.jpeg"%string]
  /\ get_image_list fs_ex (Some "missing"%string)
     = inl (not_found "missing")
  /\ last_field "c.tar.png" = "png"%string.
Proof.
  pose proof (get_image_list_spec fs_ex) as (_ & H & _ & Hl).
  split; [exact (H "imgs"%string) |].
  split; [exact (H "x.jpeg"%string) |].
  split; [exact (H "missing"%string) |].
  exact (proj1 (Hl "c.tar"%string "png"%string eq_refl)).
Defined.

(** C10.  An existing regular file whose last field is not one of the
    enumerated extensions (such as photo.PNG or photo.tiff) makes
    [get_image_list] raise: existence alone is not enough. *)
Theorem get_image_list_rejects_other_extension :
  forall (fs : filesystem) img_file,
    isfile fs img_file = true ->
    matching img_file = false ->
    path_exists fs img_file = true /\
    get_image_list fs (Some img_file) = inl (not_found img_file).
Proof.
  intros fs img_file Hf Hm.
  rewrite get_image_list_cases. unfold image_list_outcome.
  unfold isfile in Hf. unfold path_exists.
  destruct (fs img_file) as [[| entries |] |]; try discriminate.
  rewrite Hm. split; reflexivity.
Qed.

Lemma get_image_list_rejects_other_extension_witness :
  (path_exists fs_ex "photo.PNG" = true /\
   get_image_list fs_ex (Some "photo.PNG"%string)
   = inl (Exception "not found any img file in photo.PNG"))
  /\
  (path_exists fs_ex "photo.tiff" = true /\
   get_image_list fs_ex (Some "photo.tiff"%string)
   = inl (Exception "not found any img file in photo.tiff")).
Proof.
  split.
  - apply (get_image_list_rejects_other_extension fs_ex "photo.PNG");
      vm_compute; reflexivity.
  - apply (get_image_list_rejects_other_extension fs_ex "photo.tiff");
      vm_compute; reflexivity.
Defined.

(** * Properties of the pretrained-weight loader *)

Lemma bind_ret_r : forall (A : Type) (m : result A), (x <- m ;; ret x) = m.
Proof. intros A [e | a]; reflexivity. Qed.

Lemma GoogLeNet_unfold : forall (SL : SaveLoad) pretrained use_ssld kwargs,
  GoogLeNet pretrained use_ssld kwargs
  = _load_pretrained pretrained (GoogLeNetDY_new kwargs) googlenet_url use_ssld.
Proof.
  intros. unfold GoogLeNet. cbn [MODEL_URLS dict_get String.eqb Ascii.eqb
    Bool.eqb bind ret]. apply bind_ret_r.
Qed.

(** C3.  A [pretrained] value that is neither a boolean nor a string makes
    [GoogLeNet] raise while the model is being set up, so that no model is
    returned on which a forward pass could run; [False] loads nothing,
    [True] calls the loader for the model URL and a string calls the loader
    for that path. *)
Theorem GoogLeNet_pretrained_dispatch :
  forall (SL : SaveLoad) use_ssld kwargs,
    (forall pretrained,
       bool_or_str pretrained = false ->
       GoogLeNet pretrained use_ssld kwargs = inl pretrained_type_error /\
       (forall model, GoogLeNet pretrained use_ssld kwargs <> inr model))
    /\ GoogLeNet (PyBool false) use_ssld kwargs = inr (GoogLeNetDY_new kwargs)
    /\ GoogLeNet (PyBool true) use_ssld kwargs
       = load_dygraph_pretrain_from_url (GoogLeNetDY_new kwargs)
           googlenet_url use_ssld
    /\ (forall path,
          GoogLeNet (PyStr path) use_ssld kwargs
          = load_dygraph_pretrain (GoogLeNetDY_new kwargs) path).
Proof.
  intros SL use_ssld kwargs. split; [| split; [| split]].
  - intros pretrained Hp.
    assert (E : GoogLeNet pretrained use_ssld kwargs = inl pretrained_type_error).
    { rewrite GoogLeNet_unfold.
      destruct pretrained; try discriminate; reflexivity. }
    split; [exact E |]. intros model. rewrite E. discriminate.
  - rewrite GoogLeNet_unfold. reflexivity.
  - rewrite GoogLeNet_unfold. reflexivity.
  - intros path. rewrite GoogLeNet_unfold. reflexivity.
Qed.

Lemma GoogLeNet_pretrained_dispatch_witness :
  GoogLeNet (SL := failing_loader) (PyInt 3) false no_kwargs
  = inl pretrained_type_error
  /\ (forall model,
        GoogLeNet (SL := failing_loader) (PyInt 3) false no_kwargs
        <> inr model).
Proof.
  apply (proj1 (GoogLeNet_pretrained_dispatch failing_loader false no_kwargs)
           (PyInt 3)).
  reflexivity.
Defined.

(** C6.  With [pretrained=False] nothing is loaded: whatever the loaders
    would do, [_load_pretrained] leaves the model as it is and [GoogLeNet]
    returns the model exactly as [GoogLeNetDY] built it. *)
Theorem GoogLeNet_without_pretrained_keeps_model :
  forall (SL : SaveLoad) use_ssld,
    (forall model model_url,
       _load_pretrained (PyBool false) model model_url use_ssld = inr model)
    /\
    (forall kwargs,
       GoogLeNet (PyBool false) use_ssld kwargs = inr (GoogLeNetDY_new kwargs)).
Proof.
  intros SL use_ssld. split.
  - intros model model_url. reflexivity.
  - intros kwargs. rewrite GoogLeNet_unfold. reflexivity.
Qed.

(** * Properties of [xavier] *)

Lemma xavier_stdv_square : forall channels filter_size,
  (0 < filter_size ^ 2 * channels)%Z ->
  (xavier_stdv channels filter_size * xavier_stdv channels filter_size
   = 3 / IZR (filter_size ^ 2 * channels))%R.
Proof.
  intros channels filter_size Hpos. unfold xavier_stdv.
  apply sqrt_sqrt. apply Rlt_le. apply Rdiv_lt_0_compat; [lra |].
  apply IZR_lt. exact Hpos.
Qed.

Lemma xavier_bound_square : forall fin fout channels name bias,
  (0 < channels)%Z ->
  bound_square (mkLinear fin fout (xavier channels 1 name) bias)
    (3 / IZR channels).
Proof.
  intros fin fout channels name bias Hc.
  exists (xavier_stdv channels 1). split; [reflexivity |].
  rewrite xavier_stdv_square by lia. f_equal. f_equal. lia.
Qed.

Lemma bound_square_unique : forall fc v v',
  bound_square fc v -> bound_square fc v' -> v = v'.
Proof.
  intros fc v v' (b & Eb & Hb) (b' & Eb' & Hb').
  rewrite Eb in Eb'. injection Eb' as _ E. subst. reflexivity.
Qed.

(** C8 on the network's fully-connected layers.  [_fc_o1] and [_fc_o2]
    take 1152 input features but their bound is computed from 2048
    channels: its square is 3/2048, not 3/1152.  [_fc_out] does use its own
    input feature count, 1024. *)
Theorem aux_fc_xavier_uses_2048 : forall class_num fmt,
  let m := GoogLeNetDY_init class_num fmt in
  (in_features (_fc_o1 m) = 1152%Z /\
   bound_square (_fc_o1 m) (3 / 2048) /\ ~ scaled_by_fan_in (_fc_o1 m))
  /\
  (in_features (_fc_o2 m) = 1152%Z /\
   bound_square (_fc_o2 m) (3 / 2048) /\ ~ scaled_by_fan_in (_fc_o2 m))
  /\
  (in_features (_fc_out m) = 1024%Z /\ scaled_by_fan_in (_fc_out m)).
Proof.
  intros class_num fmt m.
  assert (B1 : bound_square (_fc_o1 m) (3 / 2048))
    by (apply (xavier_bound_square 1152 1024 2048); lia).
  assert (B2 : bound_square (_fc_o2 m) (3 / 2048))
    by (apply (xavier_bound_square 1152 1024 2048); lia).
  split; [| split].
  - split; [reflexivity |]. split; [exact B1 |]. intros H.
    pose proof (bound_square_unique _ _ _ B1 H) as E. simpl in E. lra.
  - split; [reflexivity |]. split; [exact B2 |]. intros H.
    pose proof (bound_square_unique _ _ _ B2 H) as E. simpl in E. lra.
  - split; [reflexivity |].
    apply (xavier_bound_square 1024 class_num 1024). lia.
Qed.

(** * Properties of the Inception module *)

Lemma read_write_layout : forall fmt n c h w,
  valid_format fmt ->
  read_layout fmt (write_layout fmt n c h w) = Some (n, c, h, w).
Proof.
  intros fmt n c h w [-> | ->]; reflexivity.
Qed.

(** A stride-1 window of odd size [2q+1] with padding [q] keeps an
    extent. *)
Lemma conv_out_same : forall h q,
  (0 <= q)%Z -> conv_out h (2 * q + 1) 1 ((2 * q + 1 - 1) / 2) = h.
Proof.
  intros h q Hq. unfold conv_out.
  replace (2 * q + 1 - 1)%Z with (q * 2)%Z by lia.
  rewrite Z.div_mul by lia. rewrite Z.div_1_r. lia.
Qed.

Lemma shape_window_same : forall fmt q chan n c c' h w,
  valid_format fmt -> (0 <= q)%Z -> (0 < h)%Z -> (0 < w)%Z ->
  chan c = Some c' ->
  shape_window fmt (2 * q + 1) 1 ((2 * q + 1 - 1) / 2) chan
    (Some (write_layout fmt n c h w))
  = Some (write_layout fmt n c' h w).
Proof.
  intros fmt q chan n c c' h w Hf Hq Hh Hw Hc. unfold shape_window.
  rewrite read_write_layout by exact Hf. rewrite Hc.
  rewrite !conv_out_same by exact Hq.
  replace ((2 * q + 1 - 1) / 2)%Z with q
    by (replace (2 * q + 1 - 1)%Z with (q * 2)%Z by lia;
        rewrite Z.div_mul by lia; reflexivity).
  replace (0 <? 1)%Z with true by reflexivity.
  replace (0 <=? q)%Z with true by (symmetry; apply Z.leb_le; lia).
  replace (0 <? 2 * q + 1)%Z with true by (symmetry; apply Z.ltb_lt; lia).
  replace (0 <? h)%Z with true by (symmetry; apply Z.ltb_lt; lia).
  replace (0 <? w)%Z with true by (symmetry; apply Z.ltb_lt; lia).
  reflexivity.
Qed.

(** A [ConvLayer] of odd kernel size and stride 1 keeps H and W. *)
Lemma ConvLayer_shape_same : forall cin cout q name fmt n h w,
  valid_format fmt -> (0 <= q)%Z -> (0 < cin)%Z -> (0 < cout)%Z ->
  (0 < h)%Z -> (0 < w)%Z ->
  shape_conv2d (_conv (ConvLayer_init cin cout (2 * q + 1) 1 1 name fmt))
    (Some (write_layout fmt n cin h w))
  = Some (write_layout fmt n cout h w).
Proof.
  intros cin cout q name fmt n h w Hf Hq Hci Hco Hh Hw.
  unfold shape_conv2d, ConvLayer_init. cbn [_conv conv_data_format kernel_size
    stride padding in_channels out_channels groups].
  apply shape_window_same; try assumption.
  rewrite Z.eqb_refl, !Z.mod_1_r.
  replace (0 <? cin)%Z with true by (symmetry; apply Z.ltb_lt; lia).
  replace (0 <? cout)%Z with true by (symmetry; apply Z.ltb_lt; lia).
  reflexivity.
Qed.

Lemma pool_3_1_1_shape_same : forall fmt n c h w,
  valid_format fmt -> (0 < h)%Z -> (0 < w)%Z ->
  shape_pool2d (mkPool2D 3 1 1 fmt) (Some (write_layout fmt n c h w))
  = Some (write_layout fmt n c h w).
Proof.
  intros fmt n c h w Hf Hh Hw. unfold shape_pool2d.
  cbn [pool_data_format pool_kernel_size pool_stride pool_padding].
  apply (shape_window_same fmt 1 (fun ci => Some ci) n c c h w);
    try assumption; [lia | reflexivity].
Qed.

Lemma shape_concat_channels : forall fmt n c1 c2 c3 c4 h w,
  valid_format fmt ->
  shape_concat
    [Some (write_layout fmt n c1 h w); Some (write_layout fmt n c2 h w);
     Some (write_layout fmt n c3 h w); Some (write_layout fmt n c4 h w)]
    (channel_axis fmt)
  = Some (write_layout fmt n (c1 + c2 + c3 + c4) h w).
Proof.
  intros fmt n c1 c2 c3 c4 h w [-> | ->];
    cbv -[Z.add Z.eqb]; rewrite !Z.eqb_refl; cbv -[Z.add];
    replace (c1 + (c2 + (c3 + (c4 + 0))))%Z with (c1 + c2 + c3 + c4)%Z by lia;
    reflexivity.
Qed.

(** C4.  [Inception.forward] is the rectified-linear activation of the
    concatenation, along the channel axis, of four branches in this order:
    the 1x1 convolution; the 3x3 convolution of the 1x1 reduction; the 5x5
    convolution of the 1x1 reduction; the 1x1 projection of the 3x3 max
    pooling (stride 1, padding 1).  Every convolution has stride 1 and
    padding (k-1)/2.  On an input of extent H x W every branch output has
    extent H x W, and the result has filter1 + filter3 + filter5 + proj
    channels. *)
Theorem Inception_forward_concat_relu :
  forall cin cout f1 f3R f3 f5R f5 proj name fmt,
    let self := Inception_init cin cout f1 f3R f3 f5R f5 proj name fmt in
    (forall (T : Type) (ops : TensorOps T) (inputs : T),
       Inception_forward self inputs
       = relu (concat [inception_1x1 cin name fmt f1 inputs;
                       inception_3x3 cin name fmt f3R f3 inputs;
                       inception_5x5 cin name fmt f5R f5 inputs;
                       inception_proj cin name fmt proj inputs]
                 (channel_axis fmt)))
    /\
    (forall n h w,
       valid_format fmt ->
       (0 < cin /\ 0 < f1 /\ 0 < f3R /\ 0 < f3 /\ 0 < f5R /\ 0 < f5
        /\ 0 < proj)%Z ->
       (0 < h)%Z -> (0 < w)%Z ->
       let x : option shape := Some (write_layout fmt n cin h w) in
       inception_1x1 cin name fmt f1 x = Some (write_layout fmt n f1 h w) /\
       inception_3x3 cin name fmt f3R f3 x
       = Some (write_layout fmt n f3 h w) /\
       inception_5x5 cin name fmt f5R f5 x
       = Some (write_layout fmt n f5 h w) /\
       inception_proj cin name fmt proj x
       = Some (write_layout fmt n proj h w) /\
       Inception_forward self x
       = Some (write_layout fmt n (f1 + f3 + f5 + proj) h w)).
Proof.
  intros cin cout f1 f3R f3 f5R f5 proj name fmt self.
  assert (Eq : forall (T : Type) (ops : TensorOps T) (inputs : T),
            Inception_forward self inputs
            = relu (concat [inception_1x1 cin name fmt f1 inputs;
                            inception_3x3 cin name fmt f3R f3 inputs;
                            inception_5x5 cin name fmt f5R f5 inputs;
                            inception_proj cin name fmt proj inputs]
                      (channel_axis fmt))).
  { intros T ops inputs.
    unfold Inception_forward, ConvLayer_forward, channel_axis,
      inception_1x1, inception_3x3, inception_5x5, inception_proj.
    change (inc_data_format self) with fmt.
    destruct (String.eqb fmt "NHWC"); reflexivity. }
  split; [exact Eq |].
  intros n h w Hf (Hcin & H1 & H3R & H3 & H5R & H5 & Hp) Hh Hw x.
  assert (B1 : inception_1x1 cin name fmt f1 x
               = Some (write_layout fmt n f1 h w)).
  { apply (ConvLayer_shape_same cin f1 0); assumption || lia. }
  assert (B3 : inception_3x3 cin name fmt f3R f3 x
               = Some (write_layout fmt n f3 h w)).
  { unfold inception_3x3. cbn [conv2d shape_ops].
    change (same_conv cin f3R 1 ("inception_" ++ name ++ "_3x3_reduce") fmt)
      with (_conv (ConvLayer_init cin f3R (2 * 0 + 1) 1 1
                     ("inception_" ++ name ++ "_3x3_reduce") fmt)).
    unfold x. rewrite ConvLayer_shape_same by (assumption || lia).
    apply (ConvLayer_shape_same f3R f3 1); assumption || lia. }
  assert (B5 : inception_5x5 cin name fmt f5R f5 x
               = Some (write_layout fmt n f5 h w)).
  { unfold inception_5x5. cbn [conv2d shape_ops].
    change (same_conv cin f5R 1 ("inception_" ++ name ++ "_5x5_reduce") fmt)
      with (_conv (ConvLayer_init cin f5R (2 * 0 + 1) 1 1
                     ("inception_" ++ name ++ "_5x5_reduce") fmt)).
    unfold x. rewrite ConvLayer_shape_same by (assumption || lia).
    apply (ConvLayer_shape_same f5R f5 2); assumption || lia. }
  assert (BP : inception_proj cin name fmt proj x
               = Some (write_layout fmt n proj h w)).
  { unfold inception_proj. cbn [conv2d max_pool2d shape_ops].
    unfold x. rewrite pool_3_1_1_shape_same by assumption.
    apply (ConvLayer_shape_same cin proj 0); assumption || lia. }
  repeat (split; [assumption |]).
  rewrite Eq. cbn [relu concat shape_ops]. rewrite B1, B3, B5, BP.
  apply shape_concat_channels. exact Hf.
Qed.

Lemma Inception_forward_concat_relu_witness :
  let x : option shape := Some [1; 192; 27; 27]%Z in
  inception_1x1 192 "ince3a" "NCHW" 64 x = Some [1; 64; 27; 27]%Z /\
  inception_3x3 192 "ince3a" "NCHW" 96 128 x = Some [1; 128; 27; 27]%Z /\
  inception_5x5 192 "ince3a" "NCHW" 16 32 x = Some [1; 32; 27; 27]%Z /\
  inception_proj 192 "ince3a" "NCHW" 32 x = Some [1; 32; 27; 27]%Z /\
  Inception_forward ince3a_example x = Some [1; 256; 27; 27]%Z.
Proof.
  apply (proj2 (Inception_forward_concat_relu
                  192 192 64 96 128 16 32 32 "ince3a" "NCHW") 1 27 27)%Z.
  - left. reflexivity.
  - lia.
  - lia.
  - lia.
Defined.

(** * Properties of the network's forward pass *)

(** C5.  In both modes [GoogLeNetDY.forward] returns the three logits
    (main, head 1, head 2).  Head 1 is fed by the output of [ince4a] and
    head 2 by the output of [ince4d]; head 1 has an activation between its
    first linear layer and its dropout, head 2 hands the output of its
    first linear layer to the dropout as it is. *)
Theorem GoogLeNetDY_forward_heads :
  (forall (T : Type) (ops : TensorOps T) (self : GoogLeNetDY) (mode : bool)
          (inputs : T),
     let net := set_training mode self in
     GoogLeNetDY_forward net inputs
     = [main_head net inputs;
        aux_head1 net (tap_ince4a net inputs);
        aux_head2 net (tap_ince4d net inputs)]
     /\ length (GoogLeNetDY_forward net inputs) = 3%nat)
  /\
  (forall (self : GoogLeNetDY) (mode : bool) (inputs : term),
     let net := set_training mode self in
     exists out feat1 feat2,
       GoogLeNetDY_forward net inputs
       = [out;
          TLinear (_out1 self)
            (TDropout (_drop_o1 self) mode
               (TRelu (TLinear (_fc_o1 self) feat1)));
          TLinear (_out2 self)
            (TDropout (_drop_o2 self) mode
               (TLinear (_fc_o2 self) feat2))]
       /\ feat1 = aux_features (_pool_o1 self) (_conv_o1 self)
                    (tap_ince4a net inputs)
       /\ feat2 = aux_features (_pool_o2 self) (_conv_o2 self)
                    (tap_ince4d net inputs)
       /\ (forall y, TLinear (_fc_o2 self) feat2 <> TRelu y)).
Proof.
  split.
  - intros T ops self mode inputs net. split; reflexivity.
  - intros self mode inputs net.
    exists (main_head net inputs),
      (aux_features (_pool_o1 self) (_conv_o1 self) (tap_ince4a net inputs)),
      (aux_features (_pool_o2 self) (_conv_o2 self) (tap_ince4d net inputs)).
    split; [reflexivity |]. split; [reflexivity |]. split; [reflexivity |].
    intros y. discriminate.
Qed.


(** * Further properties of [postprocess] *)

Lemma StronglySorted_app_cross : forall (A : Type) (R : A -> A -> Prop) l1 l2,
  StronglySorted R (l1 ++ l2) ->
  forall x y, In x l1 -> In y l2 -> R x y.
Proof.
  intros A R l1 l2. induction l1 as [| a l1 IH]; simpl; intros Hs x y Hx Hy.
  - contradiction.
  - inversion Hs as [| ? ? Hs' Ha]; subst. destruct Hx as [-> | Hx].
    + rewrite Forall_forall in Ha. apply Ha, in_or_app. right. exact Hy.
    + apply IH; assumption.
Qed.

Lemma in_map_pair_at : forall prob l i s,
  In (i, s) (map (pair_at prob) l) ->
  exists i0, In i0 l /\ i = Z.of_nat i0 /\ s = key prob i0.
Proof.
  intros prob l i s H. apply in_map_iff in H. destruct H as (i0 & E & Hi0).
  unfold pair_at in E. injection E as <- <-. exists i0. auto.
Qed.

(** X1.  Whatever [topk] is, the returned indices are distinct positions
    of the score vector, every pair carries the score at its index, and no
    position left out has a larger score than a returned one. *)
Theorem postprocess_selects_largest :
  forall (AS : ArgSort) output rest topk,
    let prob := PyInfer.flatten output in
    ascending_on prob (argsort prob) ->
    (Z.of_nat (length prob) <= 2 ^ 31)%Z ->
    exists res,
      postprocess (output :: rest) topk = inr res /\
      NoDup (map fst res) /\
      (forall i s, In (i, s) res ->
         (0 <= i < Z.of_nat (length prob))%Z /\ s = key prob (Z.to_nat i)) /\
      (forall i s j, In (i, s) res ->
         (j < length prob)%nat -> ~ In (Z.of_nat j) (map fst res) ->
         key prob j <= s).
Proof.
  intros AS output rest topk prob Hasc Hn.
  eexists. split; [apply postprocess_eq; assumption |]. fold prob.
  set (st := slice_start (- topk) (length (argsort prob))).
  unfold slice_from. fold st.
  assert (Hfst : forall l, map fst (map (pair_at prob) l) = map Z.of_nat l).
  { intros l. rewrite map_map. reflexivity. }
  split; [| split].
  - rewrite Hfst.
    apply NoDup_map_of_nat, NoDup_rev, NoDup_skipn, argsort_NoDup, Hasc.
  - intros i s H. apply in_map_pair_at in H. destruct H as (i0 & Hi0 & -> & ->).
    apply in_rev, In_skipn, (argsort_bound prob Hasc) in Hi0.
    rewrite Nat2Z.id. split; [lia | reflexivity].
  - intros i s j H Hj Hout.
    apply in_map_pair_at in H. destruct H as (i0 & Hi0 & -> & ->).
    apply in_rev in Hi0.
    assert (Hjin : In j (firstn st (argsort prob))).
    { assert (Hj' : In j (argsort prob)).
      { apply (Permutation_in _ (Permutation_sym (argsort_perm prob Hasc))).
        apply in_seq. lia. }
      rewrite <- (firstn_skipn st (argsort prob)) in Hj'.
      apply in_app_or in Hj'. destruct Hj' as [Hj' | Hj']; [exact Hj' |].
      exfalso. apply Hout. rewrite Hfst. apply in_map, in_rev.
      rewrite rev_involutive. exact Hj'. }
    apply (StronglySorted_app_cross _ (fun i j => key prob i <= key prob j)
             (firstn st (argsort prob)) (skipn st (argsort prob))).
    + rewrite firstn_skipn. apply (argsort_sorted prob Hasc).
    + exact Hjin.
    + exact Hi0.
Qed.

Lemma postprocess_selects_largest_witness :
  exists res,
    postprocess [Array1 [3 # 10; 1 # 10; 4 # 10; 2 # 10]] 2 = inr res /\
    NoDup (map fst res) /\
    (forall i s, In (i, s) res ->
       (0 <= i < 4)%Z /\
       s = key [3 # 10; 1 # 10; 4 # 10; 2 # 10] (Z.to_nat i)) /\
    (forall i s j, In (i, s) res ->
       (j < 4)%nat -> ~ In (Z.of_nat j) (map fst res) ->
       key [3 # 10; 1 # 10; 4 # 10; 2 # 10] j <= s).
Proof.
  apply (postprocess_selects_largest npy_quicksort
           (Array1 [3 # 10; 1 # 10; 4 # 10; 2 # 10]) [] 2%Z).
  - apply ascending_onb_sound. vm_compute. reflexivity.
  - vm_compute. discriminate.
Defined.

(** X2.  For [1 <= topk <= C] exactly [topk] pairs come back, by
    non-increasing score, and the position of a unique largest score comes
    first. *)
Theorem postprocess_top_k_ranked :
  forall (AS : ArgSort) output rest topk,
    let prob := PyInfer.flatten output in
    ascending_on prob (argsort prob) ->
    (1 <= topk <= Z.of_nat (length prob))%Z ->
    (Z.of_nat (length prob) <= 2 ^ 31)%Z ->
    exists res,
      postprocess (output :: rest) topk = inr res /\
      Z.of_nat (length res) = topk /\
      StronglySorted (fun a b => snd b <= snd a) res /\
      (forall m,
         (m < length prob)%nat ->
         (forall j, (j < length prob)%nat -> j <> m ->
            key prob j < key prob m) ->
         exists tl, res = (Z.of_nat m, key prob m) :: tl).
Proof.
  intros AS output rest topk prob Hasc Hk Hn.
  exact (postprocess_topk AS output rest topk Hasc Hk Hn).
Qed.

Lemma postprocess_top_k_ranked_witness :
  exists res,
    postprocess [Array1 [3 # 10; 1 # 10; 4 # 10; 2 # 10]] 2 = inr res /\
    Z.of_nat (length res) = 2%Z /\
    StronglySorted (fun a b => snd b <= snd a) res /\
    (forall m,
       (m < 4)%nat ->
       (forall j, (j < 4)%nat -> j <> m ->
          key [3 # 10; 1 # 10; 4 # 10; 2 # 10] j
          < key [3 # 10; 1 # 10; 4 # 10; 2 # 10] m) ->
       exists tl,
         res = (Z.of_nat m, key [3 # 10; 1 # 10; 4 # 10; 2 # 10] m) :: tl).
Proof.
  apply (postprocess_top_k_ranked npy_quicksort
           (Array1 [3 # 10; 1 # 10; 4 # 10; 2 # 10]) [] 2%Z).
  - apply ascending_onb_sound. vm_compute. reflexivity.
  - vm_compute. split; discriminate.
  - vm_compute. discriminate.
Defined.

(** X3.  The number of pairs for every [topk]: [min topk C] for a
    positive [topk]; for [topk <= 0] the slice [[-topk:]] drops the
    [-topk] smallest scores instead, which leaves all C pairs at
    [topk = 0]. *)
Theorem postprocess_length :
  forall (AS : ArgSort) output rest topk,
    let n := Z.of_nat (length (PyInfer.flatten output)) in
    ascending_on (PyInfer.flatten output)
      (argsort (PyInfer.flatten output)) ->
    (n <= 2 ^ 31)%Z ->
    exists res,
      postprocess (output :: rest) topk = inr res /\
      (1 <= topk -> Z.of_nat (length res) = Z.min topk n)%Z /\
      (topk <= 0 -> Z.of_nat (length res) = Z.max (n + topk) 0)%Z.
Proof.
  intros AS output rest topk n Hasc Hn.
  eexists. split; [apply postprocess_eq; assumption |].
  rewrite length_map, length_rev. unfold slice_from.
  rewrite length_skipn, (argsort_length _ Hasc). fold n.
  unfold slice_start. split; intros Hk.
  - destruct (Z.ltb_spec (- topk) 0); lia.
  - destruct (Z.ltb_spec (- topk) 0); lia.
Qed.

Lemma postprocess_length_witness :
  exists res,
    postprocess [Array1 [3 # 10; 1 # 10; 4 # 10; 2 # 10]] (-1) = inr res /\
    (1 <= -1 -> Z.of_nat (length res) = Z.min (-1) 4)%Z /\
    (-1 <= 0 -> Z.of_nat (length res) = Z.max (4 + -1) 0)%Z.
Proof.
  apply (postprocess_length npy_quicksort
           (Array1 [3 # 10; 1 # 10; 4 # 10; 2 # 10]) [] (-1)%Z).
  - apply ascending_onb_sound. vm_compute. reflexivity.
  - vm_compute. discriminate.
Defined.

(** * Further properties of [get_image_list] *)

(** X4.  A list that [get_image_list] returns is never empty; the path
    given exists, and every returned path is that path itself or one of
    its directory's matching entries joined to it. *)
Theorem get_image_list_returns_nonempty :
  forall (fs : filesystem) img_file imgs,
    get_image_list fs img_file = inr imgs ->
    imgs <> [] /\
    exists path,
      img_file = Some path /\ path_exists fs path = true /\
      (forall x, In x imgs ->
         (x = path /\ isfile fs path = true /\ matching path = true) \/
         (exists entries e,
            fs path = Some (Dir entries) /\ In e entries /\
            matching e = true /\ x = join path e)).
Proof.
  intros fs [path |] imgs H; [| discriminate].
  rewrite get_image_list_cases in H. unfold image_list_outcome in H.
  destruct (fs path) as [[| entries |] |] eqn:E; try discriminate.
  - destruct (matching path) eqn:M; [| discriminate].
    injection H as <-. split; [discriminate |].
    exists path. unfold path_exists, isfile. rewrite E.
    split; [reflexivity |]. split; [reflexivity |].
    intros x [<- | []]. left. auto.
  - destruct (map (join path) (filter matching entries)) as [| y ys] eqn:L;
      [discriminate |].
    injection H as <-. split; [discriminate |].
    exists path. unfold path_exists. rewrite E.
    split; [reflexivity |]. split; [reflexivity |].
    intros x Hx. right. rewrite <- L in Hx.
    apply in_map_iff in Hx. destruct Hx as (e & <- & He).
    apply filter_In in He. destruct He as [He Hm].
    exists entries, e. auto.
Qed.

Lemma get_image_list_returns_nonempty_witness :
  ["imgs/a.jpg"%string] <> [] /\
  exists path,
    Some "imgs"%string = Some path /\ path_exists fs_tree path = true /\
    (forall x, In x ["imgs/a.jpg"%string] ->
       (x = path /\ isfile fs_tree path = true /\ matching path = true) \/
       (exists entries e,
          fs_tree path = Some (Dir entries) /\ In e entries /\
          matching e = true /\ x = join path e)).
Proof.
  apply (get_image_list_returns_nonempty fs_tree (Some "imgs"%string)).
  vm_compute. reflexivity.
Defined.

(** X5.  [get_image_list] looks at the given path only: two file systems
    that agree on it give the same result, so the entries of a directory
    are taken from its listing without being examined (or descended
    into). *)
Theorem get_image_list_reads_only_the_path :
  forall (fs1 fs2 : filesystem) path,
    fs1 path = fs2 path ->
    get_image_list fs1 (Some path) = get_image_list fs2 (Some path).
Proof.
  intros fs1 fs2 path H.
  rewrite !get_image_list_cases. unfold image_list_outcome.
  rewrite H. reflexivity.
Qed.

Lemma get_image_list_reads_only_the_path_witness :
  get_image_list fs_tree (Some "imgs"%string)
  = get_image_list fs_listing (Some "imgs"%string)
  /\ get_image_list fs_listing (Some "imgs"%string)
     = inr ["imgs/a.jpg"%string].
Proof.
  split.
  - apply (get_image_list_reads_only_the_path fs_tree fs_listing "imgs").
    reflexivity.
  - vm_compute. reflexivity.
Defined.

Lemma split_dot_two_fields : forall s,
  no_dot s = false -> exists w1 w2 ws, split_dot s = w1 :: w2 :: ws.
Proof.
  induction s as [| c s IH]; simpl; intros H; [discriminate |].
  destruct (Ascii.eqb c ".") eqn:Ec.
  - destruct (split_dot s) as [| w ws] eqn:Es.
    + exfalso. exact (split_dot_not_nil s Es).
    + exists EmptyString, w, ws. reflexivity.
  - simpl in H. destruct (IH H) as (w1 & w2 & ws & Es). rewrite Es.
    exists (String c w1), w2, ws. reflexivity.
Qed.

Lemma last_field_cons : forall c s,
  no_dot s = false -> last_field (String c s) = last_field s.
Proof.
  intros c s H. unfold last_field. simpl.
  destruct (split_dot_two_fields s H) as (w1 & w2 & ws & Es). rewrite Es.
  destruct (Ascii.eqb c "."); reflexivity.
Qed.

Lemma no_dot_app_false : forall a e, no_dot e = false -> no_dot (a ++ e) = false.
Proof.
  induction a as [| c a IH]; simpl; intros e H; [exact H |].
  rewrite (IH e H). apply andb_false_r.
Qed.

Lemma last_field_app : forall a e,
  no_dot e = false -> last_field (a ++ e) = last_field e.
Proof.
  induction a as [| c a IH]; simpl; intros e H; [reflexivity |].
  rewrite last_field_cons by (apply no_dot_app_false; exact H).
  apply IH; exact H.
Qed.

Lemma string_app_assoc : forall a b c : string,
  ((a ++ b) ++ c = a ++ (b ++ c))%string.
Proof.
  induction a as [| x a IH]; intros b c; simpl; [| rewrite IH]; reflexivity.
Qed.

Lemma join_suffix : forall a b, exists x, join a b = (x ++ b)%string.
Proof.
  intros a b. unfold join.
  destruct (startswith_sep b); [exists EmptyString; reflexivity |].
  destruct (String.eqb a "" || endswith_sep a)%bool.
  - exists a. reflexivity.
  - exists (a ++ "/")%string. rewrite string_app_assoc. reflexivity.
Qed.

(** X6.  Joining a directory to an entry that contains a dot does not
    change the outcome of the extension test, so such a path returned for a
    directory is accepted again on its own when it names a regular
    file. *)
Theorem get_image_list_accepts_its_results :
  forall (fs : filesystem) dir e,
    no_dot e = false ->
    matching (join dir e) = matching e /\
    (matching e = true -> fs (join dir e) = Some File ->
     get_image_list fs (Some (join dir e)) = inr [join dir e]).
Proof.
  intros fs dir e Hdot.
  assert (Hm : matching (join dir e) = matching e).
  { unfold matching. destruct (join_suffix dir e) as (x & ->).
    rewrite last_field_app by exact Hdot. reflexivity. }
  split; [exact Hm |]. intros He Hf.
  rewrite get_image_list_cases. unfold image_list_outcome.
  rewrite Hf, Hm, He. reflexivity.
Qed.

Lemma get_image_list_accepts_its_results_witness :
  matching (join "imgs" "a.jpg") = matching "a.jpg" /\
  (matching "a.jpg" = true -> fs_tree (join "imgs" "a.jpg") = Some File ->
   get_image_list fs_tree (Some (join "imgs" "a.jpg"))
   = inr [join "imgs" "a.jpg"]).
Proof.
  apply (get_image_list_accepts_its_results fs_tree "imgs" "a.jpg").
  reflexivity.
Defined.

Lemma concat_dot_cons : forall w ws,
  ws <> [] ->
  String.concat "." (w :: ws) = (w ++ "." ++ String.concat "." ws)%string.
Proof.
  intros w [| w' ws] H; [contradiction | reflexivity].
Qed.

Lemma split_dot_fields : forall s,
  Forall (fun w => no_dot w = true) (split_dot s) /\
  String.concat "." (split_dot s) = s.
Proof.
  induction s as [| c s [IH1 IH2]]; simpl.
  - split; [repeat constructor | reflexivity].
  - destruct (Ascii.eqb c ".") eqn:Ec.
    + apply Ascii.eqb_eq in Ec. subst c. split.
      * constructor; [reflexivity | exact IH1].
      * rewrite concat_dot_cons by apply split_dot_not_nil.
        rewrite IH2. reflexivity.
    + destruct (split_dot s) as [| w ws] eqn:Es.
      * exfalso. exact (split_dot_not_nil s Es).
      * pose proof (Forall_inv IH1) as Hw.
        pose proof (Forall_inv_tail IH1) as Hws. simpl in Hw. split.
        -- constructor; [| exact Hws]. simpl. rewrite Ec, Hw. reflexivity.
        -- destruct ws as [| w' ws].
           ++ simpl in *. rewrite IH2. reflexivity.
           ++ rewrite concat_dot_cons by discriminate.
              rewrite concat_dot_cons in IH2 by discriminate.
              simpl. rewrite <- IH2. reflexivity.
Qed.

Lemma concat_dot_snoc : forall front x,
  front <> [] ->
  String.concat "." (front ++ [x])
  = (String.concat "." front ++ "." ++ x)%string.
Proof.
  induction front as [| w front IH]; intros x H; [contradiction |].
  destruct front as [| w' front].
  - reflexivity.
  - change ((w :: w' :: front) ++ [x]) with (w :: ((w' :: front) ++ [x])).
    rewrite concat_dot_cons by (destruct front; discriminate).
    rewrite IH by discriminate.
    rewrite (concat_dot_cons w (w' :: front)) by discriminate.
    rewrite !string_app_assoc. reflexivity.
Qed.

(** X7.  The field that the extension test reads, [split('.')[-1]], is
    free of dots and ends the name: it is the whole name, or what follows
    the name's last dot. *)
Theorem last_field_is_dot_free_suffix : forall name,
  no_dot (last_field name) = true /\
  (name = last_field name \/
   exists stem, name = (stem ++ "." ++ last_field name)%string).
Proof.
  intros name. unfold last_field.
  destruct (split_dot_fields name) as [Hall Hcat].
  destruct (exists_last (split_dot_not_nil name)) as (front & x & E).
  rewrite E in *. rewrite last_last.
  split.
  - rewrite Forall_forall in Hall. apply Hall, in_or_app. right. now left.
  - destruct front as [| w front].
    + left. simpl in Hcat. symmetry. exact Hcat.
    + right. exists (String.concat "." (w :: front)).
      rewrite concat_dot_snoc in Hcat by discriminate.
      symmetry. exact Hcat.
Qed.

(** * Properties of [str2bool] *)

Lemma lower_ascii_cases : forall c,
  (lower_ascii c = "t"%char -> c = "t"%char \/ c = "T"%char) /\
  (lower_ascii c = "r"%char -> c = "r"%char \/ c = "R"%char) /\
  (lower_ascii c = "u"%char -> c = "u"%char \/ c = "U"%char) /\
  (lower_ascii c = "e"%char -> c = "e"%char \/ c = "E"%char) /\
  (lower_ascii c = "1"%char -> c = "1"%char).
Proof.
  intros c. destruct c as [[] [] [] [] [] [] [] []]; vm_compute;
    repeat split; intros H; try discriminate H; auto.
Qed.

Lemma lower_empty : forall s, lower s = EmptyString -> s = EmptyString.
Proof. intros [| c s] H; [reflexivity | discriminate]. Qed.

Lemma In_true_spellings : forall v, In v true_spellings -> str2bool v = true.
Proof.
  intros v H. unfold true_spellings in H. simpl in H.
  repeat (destruct H as [<- | H]; [reflexivity |]). contradiction.
Qed.

(** X8.  [str2bool] is true exactly on "1", "t", "T" and the sixteen
    spellings of "true" in upper and lower case; every other string, such
    as "yes" or "on", reads as false. *)
Theorem str2bool_true_spellings : forall v,
  str2bool v = true <-> In v true_spellings.
Proof.
  intros v. split; [| apply In_true_spellings].
  unfold str2bool, str_in. cbn [existsb]. rewrite !orb_true_iff.
  rewrite !String.eqb_eq. intros [H | [H | [H | H]]]; [| | | discriminate].
  - destruct v as [| c1 [| c2 [| c3 [| c4 v]]]]; try discriminate.
    simpl in H. injection H as H1 H2 H3 H4 H5.
    apply lower_empty in H5. subst v.
    apply (proj1 (lower_ascii_cases c1)) in H1.
    apply (proj1 (proj2 (lower_ascii_cases c2))) in H2.
    apply (proj1 (proj2 (proj2 (lower_ascii_cases c3)))) in H3.
    apply (proj1 (proj2 (proj2 (proj2 (lower_ascii_cases c4))))) in H4.
    destruct H1 as [-> | ->], H2 as [-> | ->], H3 as [-> | ->],
      H4 as [-> | ->]; unfold true_spellings;
      repeat (first [left; reflexivity | right]).
  - destruct v as [| c1 v]; try discriminate.
    simpl in H. injection H as H1 H2. apply lower_empty in H2. subst v.
    apply (proj1 (lower_ascii_cases c1)) in H1.
    destruct H1 as [-> | ->]; unfold true_spellings;
      repeat (first [left; reflexivity | right]).
  - destruct v as [| c1 v]; try discriminate.
    simpl in H. injection H as H1 H2. apply lower_empty in H2. subst v.
    apply (proj2 (proj2 (proj2 (proj2 (lower_ascii_cases c1))))) in H1.
    subst c1. left. reflexivity.
Qed.

(** * Further properties of [xavier] and [ConvLayer] *)

(** X9.  For a positive channel count and a non-zero filter size
    [xavier] names the parameter [name + "_weights"] and draws it from a
    symmetric interval [(-b, b)] with [b > 0] and
    [b^2 = 3 / (filter_size^2 * channels)]; more channels give a bound
    that is not larger. *)
Theorem xavier_bound : forall channels filter_size name,
  (0 < channels)%Z -> filter_size <> 0%Z ->
  attr_name (xavier channels filter_size name) = (name ++ "_weights")%string /\
  (exists b : R,
     initializer (xavier channels filter_size name) = Some (Uniform (- b) b) /\
     (0 < b)%R /\
     (b * b = 3 / IZR (filter_size ^ 2 * channels))%R) /\
  (forall channels', (channels <= channels')%Z ->
     (xavier_stdv channels' filter_size <= xavier_stdv channels filter_size)%R).
Proof.
  intros channels filter_size name Hc Hf.
  assert (Hsq : (0 < filter_size ^ 2)%Z) by nia.
  assert (Hd : (0 < filter_size ^ 2 * channels)%Z) by nia.
  assert (HdR : (0 < IZR (filter_size ^ 2 * channels))%R)
    by (apply IZR_lt; exact Hd).
  split; [reflexivity |]. split.
  - exists (xavier_stdv channels filter_size).
    split; [reflexivity |]. split.
    + unfold xavier_stdv. apply sqrt_lt_R0.
      apply Rdiv_lt_0_compat; [lra | exact HdR].
    + apply xavier_stdv_square. exact Hd.
  - intros channels' Hle. unfold xavier_stdv. apply sqrt_le_1_alt.
    assert (Hd' : (filter_size ^ 2 * channels
                   <= filter_size ^ 2 * channels')%Z) by nia.
    apply IZR_le in Hd'.
    unfold Rdiv. apply Rmult_le_compat_l; [lra |].
    apply Rinv_le_contravar; assumption.
Qed.

Lemma xavier_bound_witness :
  attr_name (xavier 1024 1 "out") = "out_weights"%string /\
  (exists b : R,
     initializer (xavier 1024 1 "out") = Some (Uniform (- b) b) /\
     (0 < b)%R /\ (b * b = 3 / IZR (1 ^ 2 * 1024))%R) /\
  (forall channels', (1024 <= channels')%Z ->
     (xavier_stdv channels' 1 <= xavier_stdv 1024 1)%R).
Proof.
  apply (xavier_bound 1024 1 "out"); [lia | discriminate].
Defined.

Lemma shape_window_layout : forall fmt k s p chan n c c' h w,
  valid_format fmt -> chan c = Some c' ->
  (0 < s)%Z -> (0 <= p)%Z -> (0 < k)%Z ->
  (0 < conv_out h k s p)%Z -> (0 < conv_out w k s p)%Z ->
  shape_window fmt k s p chan (Some (write_layout fmt n c h w))
  = Some (write_layout fmt n c' (conv_out h k s p) (conv_out w k s p)).
Proof.
  intros fmt k s p chan n c c' h w Hf Hc Hs Hp Hk Hh Hw.
  unfold shape_window.
  rewrite read_write_layout by exact Hf. rewrite Hc.
  replace (0 <? s)%Z with true by (symmetry; apply Z.ltb_lt; lia).
  replace (0 <=? p)%Z with true by (symmetry; apply Z.leb_le; lia).
  replace (0 <? k)%Z with true by (symmetry; apply Z.ltb_lt; lia).
  replace (0 <? conv_out h k s p)%Z with true
    by (symmetry; apply Z.ltb_lt; lia).
  replace (0 <? conv_out w k s p)%Z with true
    by (symmetry; apply Z.ltb_lt; lia).
  reflexivity.
Qed.

Lemma shape_window_wrong_channels : forall fmt k s p chan n c h w,
  valid_format fmt -> chan c = None ->
  shape_window fmt k s p chan (Some (write_layout fmt n c h w)) = None.
Proof.
  intros fmt k s p chan n c h w Hf Hc. unfold shape_window.
  rewrite read_write_layout by exact Hf. rewrite Hc. reflexivity.
Qed.

(** The shape behind a [ConvLayer] of any kernel size and stride. *)
Lemma ConvLayer_shape : forall cin cout k s name fmt n h w,
  valid_format fmt -> (0 < cin)%Z -> (0 < cout)%Z ->
  (0 < k)%Z -> (0 < s)%Z ->
  (0 < conv_out h k s ((k - 1) / 2))%Z ->
  (0 < conv_out w k s ((k - 1) / 2))%Z ->
  ConvLayer_forward (ConvLayer_init cin cout k s 1 name fmt)
    (Some (write_layout fmt n cin h w))
  = Some (write_layout fmt n cout
            (conv_out h k s ((k - 1) / 2)) (conv_out w k s ((k - 1) / 2))).
Proof.
  intros cin cout k s name fmt n h w Hf Hci Hco Hk Hs Hh Hw.
  unfold ConvLayer_forward, ConvLayer_init.
  cbn [conv2d shape_ops _conv]. unfold shape_conv2d.
  cbn [conv_data_format kernel_size stride padding in_channels out_channels
       groups].
  apply shape_window_layout; try assumption.
  - rewrite Z.eqb_refl, !Z.mod_1_r.
    replace (0 <? cin)%Z with true by (symmetry; apply Z.ltb_lt; lia).
    replace (0 <? cout)%Z with true by (symmetry; apply Z.ltb_lt; lia).
    reflexivity.
  - apply Z.div_pos; lia.
Qed.

Lemma ConvLayer_wrong_channels : forall cin cout k s name fmt n c h w,
  valid_format fmt -> c <> cin ->
  ConvLayer_forward (ConvLayer_init cin cout k s 1 name fmt)
    (Some (write_layout fmt n c h w))
  = None.
Proof.
  intros cin cout k s name fmt n c h w Hf Hc.
  unfold ConvLayer_forward, ConvLayer_init.
  cbn [conv2d shape_ops _conv]. unfold shape_conv2d.
  cbn [conv_data_format kernel_size stride padding in_channels out_channels
       groups].
  apply shape_window_wrong_channels; [exact Hf |].
  replace (c =? cin)%Z with false by (symmetry; apply Z.eqb_neq; exact Hc).
  reflexivity.
Qed.

(** X10.  A stride-1 [ConvLayer] keeps the extent H x W for an odd
    kernel size and loses one row and one column for an even one (the
    padding is [(k-1)//2] on both sides); it has no bias, and it rejects an
    input whose channel count is not [num_channels]. *)
Theorem ConvLayer_extent : forall cin cout q name fmt n h w,
  valid_format fmt -> (0 < cin)%Z -> (0 < cout)%Z ->
  (1 <= q)%Z -> (1 < h)%Z -> (1 < w)%Z ->
  ConvLayer_forward (ConvLayer_init cin cout (2 * q - 1) 1 1 name fmt)
    (Some (write_layout fmt n cin h w))
  = Some (write_layout fmt n cout h w)
  /\
  ConvLayer_forward (ConvLayer_init cin cout (2 * q) 1 1 name fmt)
    (Some (write_layout fmt n cin h w))
  = Some (write_layout fmt n cout (h - 1) (w - 1))
  /\
  (forall k s c, c <> cin ->
     ConvLayer_forward (ConvLayer_init cin cout k s 1 name fmt)
       (Some (write_layout fmt n c h w)) = None)
  /\
  (forall k s,
     bias_attr (_conv (ConvLayer_init cin cout k s 1 name fmt)) = None).
Proof.
  intros cin cout q name fmt n h w Hf Hci Hco Hq Hh Hw.
  assert (Odd : forall x, (1 < x)%Z ->
            conv_out x (2 * q - 1) 1 ((2 * q - 1 - 1) / 2) = x).
  { intros x Hx. unfold conv_out.
    replace (2 * q - 1 - 1)%Z with ((q - 1) * 2)%Z by lia.
    rewrite Z.div_mul by lia. rewrite Z.div_1_r. lia. }
  assert (Even : forall x, (1 < x)%Z ->
            conv_out x (2 * q) 1 ((2 * q - 1) / 2) = (x - 1)%Z).
  { intros x Hx. unfold conv_out.
    replace ((2 * q - 1) / 2)%Z with (q - 1)%Z
      by (apply Z.div_unique with (r := 1%Z); lia).
    rewrite Z.div_1_r. lia. }
  split; [| split; [| split]].
  - rewrite ConvLayer_shape; try assumption; try lia.
    + rewrite !Odd by assumption. reflexivity.
    + rewrite Odd by assumption. lia.
    + rewrite Odd by assumption. lia.
  - rewrite ConvLayer_shape; try assumption; try lia.
    + rewrite !Even by assumption. reflexivity.
    + rewrite Even by assumption. lia.
    + rewrite Even by assumption. lia.
  - intros k s c Hc. apply ConvLayer_wrong_channels; assumption.
  - intros k s. reflexivity.
Qed.

Lemma ConvLayer_extent_witness :
  ConvLayer_forward (ConvLayer_init 64 192 3 1 1 "conv2_3x3" "NCHW")
    (Some [1; 64; 55; 55]%Z)
  = Some [1; 192; 55; 55]%Z
  /\
  ConvLayer_forward (ConvLayer_init 64 192 4 1 1 "conv2_3x3" "NCHW")
    (Some [1; 64; 55; 55]%Z)
  = Some [1; 192; 54; 54]%Z
  /\
  (forall k s c, c <> 64%Z ->
     ConvLayer_forward (ConvLayer_init 64 192 k s 1 "conv2_3x3" "NCHW")
       (Some [1; c; 55; 55]%Z) = None)
  /\
  (forall k s,
     bias_attr (_conv (ConvLayer_init 64 192 k s 1 "conv2_3x3" "NCHW"))
     = None).
Proof.
  apply (ConvLayer_extent 64 192 2 "conv2_3x3" "NCHW" 1 55 55)%Z;
    try lia.
  left. reflexivity.
Defined.

(** * Further properties of the Inception module and the network *)

Lemma pool_shape : forall k s p fmt n c h w,
  valid_format fmt -> (0 < k)%Z -> (0 < s)%Z -> (0 <= p)%Z ->
  (0 < conv_out h k s p)%Z -> (0 < conv_out w k s p)%Z ->
  shape_pool2d (mkPool2D k s p fmt) (Some (write_layout fmt n c h w))
  = Some (write_layout fmt n c (conv_out h k s p) (conv_out w k s p)).
Proof.
  intros k s p fmt n c h w Hf Hk Hs Hp Hh Hw. unfold shape_pool2d.
  cbn [pool_data_format pool_kernel_size pool_stride pool_padding].
  apply shape_window_layout; try assumption. reflexivity.
Qed.

Lemma Inception_concat_shape : forall (self : Inception) (x : option shape),
  Inception_forward self x
  = shape_concat [branch_1x1 self x; branch_3x3 self x;
                  branch_5x5 self x; branch_proj self x]
      (channel_axis (inc_data_format self)).
Proof.
  intros self x.
  unfold Inception_forward, ConvLayer_forward, channel_axis,
    branch_1x1, branch_3x3, branch_5x5, branch_proj.
  destruct (String.eqb (inc_data_format self) "NHWC"); reflexivity.
Qed.

Lemma Inception_shape : forall cin cout f1 f3R f3 f5R f5 proj name fmt n h w,
  valid_format fmt ->
  (0 < cin /\ 0 < f1 /\ 0 < f3R /\ 0 < f3 /\ 0 < f5R /\ 0 < f5 /\ 0 < proj)%Z ->
  (0 < h)%Z -> (0 < w)%Z ->
  Inception_forward (Inception_init cin cout f1 f3R f3 f5R f5 proj name fmt)
    (Some (write_layout fmt n cin h w))
  = Some (write_layout fmt n (f1 + f3 + f5 + proj) h w).
Proof.
  intros cin cout f1 f3R f3 f5R f5 proj name fmt n h w Hf
    (Hcin & H1 & H3R & H3 & H5R & H5 & Hp) Hh Hw.
  rewrite Inception_concat_shape.
  unfold branch_1x1, branch_3x3, branch_5x5, branch_proj.
  cbn [conv2d max_pool2d shape_ops Inception_init inc_data_format
       _conv1 _conv3r _conv3 _conv5r _conv5 _pool _convprj].
  rewrite (ConvLayer_shape_same cin f1 0) by (assumption || lia).
  rewrite (ConvLayer_shape_same cin f3R 0) by (assumption || lia).
  rewrite (ConvLayer_shape_same f3R f3 1) by (assumption || lia).
  rewrite (ConvLayer_shape_same cin f5R 0) by (assumption || lia).
  rewrite (ConvLayer_shape_same f5R f5 2) by (assumption || lia).
  rewrite pool_3_1_1_shape_same by assumption.
  rewrite (ConvLayer_shape_same cin proj 0) by (assumption || lia).
  apply shape_concat_channels. exact Hf.
Qed.

(** X11.  An Inception module rejects an input whose channel count is
    not its [input_channels]. *)
Theorem Inception_rejects_other_channels :
  forall cin cout f1 f3R f3 f5R f5 proj name fmt n c h w,
    valid_format fmt -> c <> cin ->
    Inception_forward (Inception_init cin cout f1 f3R f3 f5R f5 proj name fmt)
      (Some (write_layout fmt n c h w))
    = None.
Proof.
  intros cin cout f1 f3R f3 f5R f5 proj name fmt n c h w Hf Hc.
  rewrite Inception_concat_shape.
  assert (E : branch_1x1
                (Inception_init cin cout f1 f3R f3 f5R f5 proj name fmt)
                (Some (write_layout fmt n c h w)) = None).
  { apply (ConvLayer_wrong_channels cin f1 1 1); assumption. }
  rewrite E. reflexivity.
Qed.

Lemma Inception_rejects_other_channels_witness :
  Inception_forward ince3a_example (Some [1; 3; 27; 27]%Z) = None.
Proof.
  apply (Inception_rejects_other_channels
           192 192 64 96 128 16 32 32 "ince3a" "NCHW" 1 3 27 27)%Z.
  - left. reflexivity.
  - discriminate.
Defined.

Lemma ConvLayer_same : forall cin cout q name fmt n h w,
  valid_format fmt -> (0 <= q)%Z -> (0 < cin)%Z -> (0 < cout)%Z ->
  (0 < h)%Z -> (0 < w)%Z ->
  ConvLayer_forward (ConvLayer_init cin cout (2 * q + 1) 1 1 name fmt)
    (Some (write_layout fmt n cin h w))
  = Some (write_layout fmt n cout h w).
Proof.
  intros. unfold ConvLayer_forward. cbn [conv2d shape_ops].
  apply ConvLayer_shape_same; assumption.
Qed.

Lemma flatten_layout : forall fmt n c h w,
  valid_format fmt ->
  shape_flatten (Some (write_layout fmt n c h w)) = Some [n; (c * h * w)%Z].
Proof.
  intros fmt n c h w [-> | ->]; cbv -[Z.mul]; do 3 f_equal; ring.
Qed.

Lemma linear_2d : forall (l : Linear) n d,
  shape_linear l (Some [n; d])
  = if (d =? in_features l)%Z then Some [n; out_features l] else None.
Proof. intros l n d. reflexivity. Qed.

Lemma extents_positive : forall x,
  (0 < aux_extent x)%Z ->
  (0 < conv_out x 7 2 3
   /\ 0 < conv_out (conv_out x 7 2 3) 3 2 0
   /\ 0 < conv_out (conv_out (conv_out x 7 2 3) 3 2 0) 3 2 0
   /\ 0 < stage4_extent x /\ 0 < stage5_extent x)%Z.
Proof.
  intros x. unfold aux_extent, stage5_extent, stage4_extent, conv_out.
  intros H. Z.div_mod_to_equations. lia.
Qed.

Lemma aux_extent_three : forall x,
  aux_extent x = 3%Z <-> (189 <= x <= 236)%Z.
Proof.
  intros x. unfold aux_extent, stage4_extent, conv_out.
  split; intros H; Z.div_mod_to_equations; lia.
Qed.

Section ForwardShapes.

Variables (class_num : Z) (fmt : string) (n h w : Z).
Hypothesis Hf : valid_format fmt.
Hypothesis Hh : (0 < aux_extent h)%Z.
Hypothesis Hw : (0 < aux_extent w)%Z.

Let m := GoogLeNetDY_init class_num fmt.

Lemma stage3_shape :
  stage3_output m (Some [n; 3; h; w]%Z)
  = Some (write_layout fmt n 480 (stage4_extent h) (stage4_extent w)).
Proof.
  destruct (extents_positive h Hh) as (H1 & H2 & H3 & H4 & _).
  destruct (extents_positive w Hw) as (W1 & W2 & W3 & W4 & _).
  unfold stage3_output, m, GoogLeNetDY_init.
  cbn [data_format g_conv g_pool _conv_1 _conv_2 _ince3a _ince3b].
  assert (Ein : (if String.eqb fmt "NHWC"
                 then stop_gradient (transpose (Some [n; 3; h; w]%Z)
                                       [0; 2; 3; 1]%Z)
                 else Some [n; 3; h; w]%Z)
                = Some (write_layout fmt n 3 h w))
    by (destruct Hf as [-> | ->]; reflexivity).
  rewrite Ein.
  rewrite (ConvLayer_shape 3 64 7 2) by (assumption || lia).
  cbn [max_pool2d shape_ops].
  rewrite (pool_shape 3 2 0) by (assumption || lia).
  change ((7 - 1) / 2)%Z with 3%Z in *.
  rewrite (ConvLayer_same 64 64 0) by (assumption || lia).
  rewrite (ConvLayer_same 64 192 1) by (assumption || lia).
  rewrite (pool_shape 3 2 0) by (assumption || lia).
  rewrite (Inception_shape 192 192 64 96 128 16 32 32) by (assumption || lia).
  rewrite (Inception_shape 256 256 128 128 192 32 96 64)
    by (assumption || lia).
  rewrite (pool_shape 3 2 0) by (assumption || lia).
  reflexivity.
Qed.

Lemma tap_ince4a_shape :
  tap_ince4a m (Some [n; 3; h; w]%Z)
  = Some (write_layout fmt n 512 (stage4_extent h) (stage4_extent w)).
Proof.
  destruct (extents_positive h Hh) as (_ & _ & _ & H4 & _).
  destruct (extents_positive w Hw) as (_ & _ & _ & W4 & _).
  unfold tap_ince4a. rewrite stage3_shape.
  unfold m, GoogLeNetDY_init. cbn [_ince4a].
  rewrite (Inception_shape 480 480 192 96 208 16 48 64) by (assumption || lia).
  reflexivity.
Qed.

Lemma tap_ince4d_shape :
  tap_ince4d m (Some [n; 3; h; w]%Z)
  = Some (write_layout fmt n 528 (stage4_extent h) (stage4_extent w)).
Proof.
  destruct (extents_positive h Hh) as (_ & _ & _ & H4 & _).
  destruct (extents_positive w Hw) as (_ & _ & _ & W4 & _).
  unfold tap_ince4d. rewrite tap_ince4a_shape.
  unfold m, GoogLeNetDY_init. cbn [_ince4b _ince4c _ince4d].
  rewrite (Inception_shape 512 512 160 112 224 24 64 64) by (assumption || lia).
  rewrite (Inception_shape 512 512 128 128 256 24 64 64) by (assumption || lia).
  rewrite (Inception_shape 512 512 112 144 288 32 64 64) by (assumption || lia).
  reflexivity.
Qed.

Lemma main_head_shape :
  main_head m (Some [n; 3; h; w]%Z) = Some [n; class_num].
Proof.
  destruct (extents_positive h Hh) as (_ & _ & _ & H4 & H5).
  destruct (extents_positive w Hw) as (_ & _ & _ & W4 & W5).
  unfold main_head. rewrite tap_ince4d_shape.
  unfold m, GoogLeNetDY_init.
  cbn [_ince4e _ince5a _ince5b g_pool _pool_5 _drop _fc_out training].
  rewrite (Inception_shape 528 528 256 160 320 32 128 128)
    by (assumption || lia).
  cbn [max_pool2d adaptive_avg_pool2d dropout flatten linear shape_ops].
  rewrite (pool_shape 3 2 0) by (assumption || lia).
  rewrite (Inception_shape 832 832 256 160 320 32 128 128)
    by (assumption || lia).
  rewrite (Inception_shape 832 832 384 192 384 48 128 128)
    by (assumption || lia).
  unfold shape_adaptive. cbn [adaptive_data_format output_size].
  rewrite read_write_layout by exact Hf.
  rewrite flatten_layout by exact Hf.
  rewrite linear_2d. reflexivity.
Qed.

Lemma aux_features_shape : forall cin name,
  (0 < cin)%Z ->
  aux_features (mkPool2D 5 3 0 fmt) (ConvLayer_init cin 128 1 1 1 name fmt)
    (Some (write_layout fmt n cin (stage4_extent h) (stage4_extent w)))
  = Some [n; (128 * aux_extent h * aux_extent w)%Z].
Proof.
  intros cin name Hc. unfold aux_features.
  cbn [avg_pool2d flatten shape_ops].
  rewrite (pool_shape 5 3 0) by (assumption || lia).
  rewrite (ConvLayer_same cin 128 0) by (assumption || lia).
  rewrite flatten_layout by exact Hf. reflexivity.
Qed.

Lemma aux_heads_shape :
  aux_head1 m (tap_ince4a m (Some [n; 3; h; w]%Z))
  = (if (128 * aux_extent h * aux_extent w =? 1152)%Z
     then Some [n; class_num] else None)
  /\
  aux_head2 m (tap_ince4d m (Some [n; 3; h; w]%Z))
  = (if (128 * aux_extent h * aux_extent w =? 1152)%Z
     then Some [n; class_num] else None).
Proof.
  rewrite tap_ince4a_shape, tap_ince4d_shape.
  unfold aux_head1, aux_head2, m, GoogLeNetDY_init.
  cbn [_pool_o1 _conv_o1 _fc_o1 _drop_o1 _out1
       _pool_o2 _conv_o2 _fc_o2 _drop_o2 _out2 training].
  rewrite !aux_features_shape by lia.
  cbn [linear relu dropout shape_ops]. rewrite !linear_2d.
  cbn [in_features out_features].
  destruct (128 * aux_extent h * aux_extent w =? 1152)%Z; split; reflexivity.
Qed.

End ForwardShapes.

Lemma forward_by_heads :
  forall (T : Type) (ops : TensorOps T) (self : GoogLeNetDY) (inputs : T),
    GoogLeNetDY_forward self inputs
    = [main_head self inputs;
       aux_head1 self (tap_ince4a self inputs);
       aux_head2 self (tap_ince4d self inputs)].
Proof. intros T ops self inputs. reflexivity. Qed.

(** X12.  On a channel-first input [n, 3, h, w] whose extents leave
    3 x 3 = 9 positions behind the pooling of the auxiliary heads, the
    network returns three logits of shape [n, class_num], in either data
    format; an extent leaves 3 positions exactly when it lies between 189
    and 236. *)
Theorem GoogLeNetDY_forward_shapes : forall class_num fmt n h w,
  valid_format fmt ->
  (0 < aux_extent h)%Z ->
  (aux_extent h * aux_extent w = 9)%Z ->
  GoogLeNetDY_forward (GoogLeNetDY_init class_num fmt) (Some [n; 3; h; w]%Z)
  = [Some [n; class_num]; Some [n; class_num]; Some [n; class_num]]
  /\ (forall x, aux_extent x = 3%Z <-> (189 <= x <= 236)%Z).
Proof.
  intros class_num fmt n h w Hf Hh Hp.
  assert (Hw : (0 < aux_extent w)%Z) by nia.
  split; [| apply aux_extent_three].
  rewrite forward_by_heads.
  destruct (aux_heads_shape class_num fmt n h w Hf Hh Hw) as [E1 E2].
  rewrite E1, E2, main_head_shape by assumption.
  replace (128 * aux_extent h * aux_extent w =? 1152)%Z with true
    by (symmetry; apply Z.eqb_eq; lia).
  reflexivity.
Qed.

Lemma GoogLeNetDY_forward_shapes_witness :
  GoogLeNetDY_forward (GoogLeNetDY_init 1000 "NCHW")
    (Some [8; 3; 224; 224]%Z)
  = [Some [8; 1000]%Z; Some [8; 1000]%Z; Some [8; 1000]%Z]
  /\ (forall x, aux_extent x = 3%Z <-> (189 <= x <= 236)%Z).
Proof.
  apply (GoogLeNetDY_forward_shapes 1000 "NCHW" 8 224 224)%Z.
  - left. reflexivity.
  - vm_compute. reflexivity.
  - vm_compute. reflexivity.
Defined.

(** X13.  When the pooling of the auxiliary heads leaves a number of
    positions other than 9 (as for a 256 x 256 input), the first linear
    layer of either auxiliary head, built for 1152 features, rejects its
    input; only the main logits have a shape. *)
Theorem GoogLeNetDY_aux_heads_reject_other_sizes :
  forall class_num fmt n h w,
    valid_format fmt ->
    (0 < aux_extent h)%Z -> (0 < aux_extent w)%Z ->
    (aux_extent h * aux_extent w <> 9)%Z ->
    GoogLeNetDY_forward (GoogLeNetDY_init class_num fmt)
      (Some [n; 3; h; w]%Z)
    = [Some [n; class_num]; None; None].
Proof.
  intros class_num fmt n h w Hf Hh Hw Hp.
  rewrite forward_by_heads.
  destruct (aux_heads_shape class_num fmt n h w Hf Hh Hw) as [E1 E2].
  rewrite E1, E2, main_head_shape by assumption.
  replace (128 * aux_extent h * aux_extent w =? 1152)%Z with false
    by (symmetry; apply Z.eqb_neq; lia).
  reflexivity.
Qed.

Lemma GoogLeNetDY_aux_heads_reject_other_sizes_witness :
  GoogLeNetDY_forward (GoogLeNetDY_init 1000 "NCHW")
    (Some [1; 3; 256; 256]%Z)
  = [Some [1; 1000]%Z; None; None].
Proof.
  apply (GoogLeNetDY_aux_heads_reject_other_sizes 1000 "NCHW" 1 256 256)%Z.
  - left. reflexivity.
  - vm_compute. reflexivity.
  - vm_compute. reflexivity.
  - vm_compute. discriminate.
Defined.

Lemma Inception_forward_None : forall self : Inception,
  Inception_forward self None = None.
Proof.
  intros self. rewrite Inception_concat_shape. reflexivity.
Qed.

(** X14.  The network reads its input channel-first in both data
    formats (for NHWC it transposes the input itself), and the stem rejects
    every input whose second axis is not 3, so that a channel-last input is
    rejected by the NHWC network as well. *)
Theorem GoogLeNetDY_rejects_other_channels : forall class_num fmt n c h w,
  valid_format fmt -> c <> 3%Z ->
  GoogLeNetDY_forward (GoogLeNetDY_init class_num fmt) (Some [n; c; h; w]%Z)
  = [None; None; None].
Proof.
  intros class_num fmt n c h w Hf Hc.
  unfold GoogLeNetDY_forward, GoogLeNetDY_init.
  cbn [data_format g_conv g_pool _conv_1 _conv_2 _ince3a _ince3b
       _ince4a _ince4b _ince4c _ince4d _ince4e _ince5a _ince5b
       _pool_5 _drop _fc_out _pool_o1 _conv_o1 _fc_o1 _drop_o1 _out1
       _pool_o2 _conv_o2 _fc_o2 _drop_o2 _out2 training].
  assert (Ein : (if String.eqb fmt "NHWC"
                 then stop_gradient (transpose (Some [n; c; h; w]%Z)
                                       [0; 2; 3; 1]%Z)
                 else Some [n; c; h; w]%Z)
                = Some (write_layout fmt n c h w))
    by (destruct Hf as [-> | ->]; reflexivity).
  rewrite Ein.
  rewrite (ConvLayer_wrong_channels 3 64 7 2) by assumption.
  repeat first
    [ rewrite Inception_forward_None
    | progress cbn [max_pool2d avg_pool2d adaptive_avg_pool2d dropout
                    flatten linear relu shape_ops shape_pool2d
                    shape_window shape_adaptive shape_flatten
                    shape_linear ConvLayer_forward conv2d shape_conv2d] ].
  reflexivity.
Qed.

Lemma GoogLeNetDY_rejects_other_channels_witness :
  GoogLeNetDY_forward (GoogLeNetDY_init 1000 "NHWC")
    (Some [1; 224; 224; 3]%Z)
  = [None; None; None].
Proof.
  apply (GoogLeNetDY_rejects_other_channels 1000 "NHWC" 1 224 224 3)%Z.
  - right. reflexivity.
  - discriminate.
Defined.

Lemma distinct_NoDup : forall l, distinct l = true -> NoDup l.
Proof.
  induction l as [| x l IH]; simpl; intros H; constructor.
  - apply andb_true_iff in H. destruct H as [H _].
    intros Hin. apply str_in_In in Hin. rewrite Hin in H. discriminate.
  - apply IH. apply andb_true_iff in H. tauto.
Qed.

(** X15.  The network creates 69 named parameters; the names are
    pairwise distinct and depend neither on the class count nor on the data
    format. *)
Theorem parameter_names_distinct : forall class_num fmt,
  NoDup (parameter_names (GoogLeNetDY_init class_num fmt)) /\
  length (parameter_names (GoogLeNetDY_init class_num fmt)) = 69%nat /\
  parameter_names (GoogLeNetDY_init class_num fmt)
  = parameter_names (GoogLeNetDY_init 1000 "NCHW").
Proof.
  intros class_num fmt. split; [| split].
  - apply distinct_NoDup. vm_compute. reflexivity.
  - vm_compute. reflexivity.
  - vm_compute. reflexivity.
Qed.

(** X16.  [use_ssld] only reaches the loader for the model URL: unless
    [pretrained] is [True], [GoogLeNet] gives the same result for both
    values of [use_ssld]. *)
Theorem GoogLeNet_use_ssld_only_for_url :
  forall (SL : SaveLoad) pretrained use_ssld use_ssld' kwargs,
    is_True pretrained = false ->
    GoogLeNet pretrained use_ssld kwargs
    = GoogLeNet pretrained use_ssld' kwargs.
Proof.
  intros SL pretrained use_ssld use_ssld' kwargs H.
  rewrite !GoogLeNet_unfold. unfold _load_pretrained. rewrite H.
  reflexivity.
Qed.

Lemma GoogLeNet_use_ssld_only_for_url_witness :
  GoogLeNet (SL := failing_loader) (PyStr "w.pdparams") true no_kwargs
  = GoogLeNet (SL := failing_loader) (PyStr "w.pdparams") false no_kwargs.
Proof.
  apply (GoogLeNet_use_ssld_only_for_url failing_loader
           (PyStr "w.pdparams") true false no_kwargs).
  reflexivity.
Defined.
